(** * Teaching and Learning page: data flow of [TeachingAndLearning.tsx]

    A shallow embedding of the data-flow logic of
    [src/pages/teacher/TeachingAndLearning.tsx]: the audit logger
    [logActivity], the identity resolver [fetchTeacherId], the entry
    aggregator [fetchEntries], the mutations [addOrUpdateEntry] and
    [handleDelete], the form check [validateForm] and the form handlers of
    a category panel.  Remote collections are finite maps, JavaScript
    exceptions are an explicit outcome, and every remote call takes its
    success or failure from an oracle carried by the state. *)

From Stdlib Require Import Ascii.
From stdpp Require Import gmap strings list fin_maps.

Open Scope string_scope.
Open Scope list_scope.

(** ** JavaScript values and objects *)

(** A field read such as [data.title]: a string, or [undefined]. *)
Abbreviation jsstr := (option string).

(** Truthiness of a string-or-null/undefined value: [null], [undefined] and
    the empty string are falsy. *)
Definition truthy (v : jsstr) : bool :=
  match v with
  | Some s => negb (String.eqb s "")
  | None => false
  end.

(** Property-key conversion: [o[undefined]] reads the key ["undefined"]. *)
Definition property_key (v : jsstr) : string := default "undefined" v.

(** The property names every plain object inherits from
    [Object.prototype]; all of them hold truthy values (functions, and the
    prototype object itself for [__proto__]), none of which has a [push]
    method. *)
Definition object_prototype_keys : list string :=
  [ "constructor"; "hasOwnProperty"; "isPrototypeOf"; "propertyIsEnumerable";
    "toLocaleString"; "toString"; "valueOf"; "__proto__";
    "__defineGetter__"; "__defineSetter__"; "__lookupGetter__";
    "__lookupSetter__" ].

(** ** Data model *)

(** A Firestore document ([DocumentData]): field name to value. *)
Abbreviation Doc := (gmap string string).

Record Entry := mkEntry {
  id : string;
  title : jsstr;
  className : jsstr;
  section : jsstr;
  description : jsstr;
  url : jsstr;
  entry_teacherId : jsstr;
  category : jsstr
}.

(** The activity-log record built by [logActivity]. *)
Record LogEntry := mkLogEntry {
  actionType : string;
  entity : string;
  log_description : string;
  timestamp : nat;
  userId : jsstr
}.

(** The form of a category panel. *)
Record FormData := mkFormData {
  form_id : string;
  form_title : string;
  form_className : string;
  form_section : string;
  form_description : string;
  form_url : string
}.

(** The four category panels rendered by the page. *)
Inductive Panel :=
  | CourseDesign
  | PedagogicalInnovations
  | StudentFeedback
  | AcademicResults.

Definition panel_category (p : Panel) : string :=
  match p with
  | CourseDesign => "Course Design"
  | PedagogicalInnovations => "Pedagogical Innovations"
  | StudentFeedback => "Student Feedback"
  | AcademicResults => "Academic Results"
  end.

Definition panels : list Panel :=
  [CourseDesign; PedagogicalInnovations; StudentFeedback; AcademicResults].

(** The bucketed entries state, [Record<string, Entry[]>]. *)
Abbreviation Buckets := (gmap string (list Entry)).

(** The object literal with the four empty buckets (initial state, and
    [updatedEntries] in [fetchEntries]). *)
Definition empty_buckets : Buckets :=
  <["Course Design" := []]>
    (<["Pedagogical Innovations" := []]>
      (<["Student Feedback" := []]>
        (<["Academic Results" := []]> ∅))).

(** ** validateForm *)

Definition validateForm (formData : FormData) : bool :=
  negb (String.eqb (form_title formData) "")
  && negb (String.eqb (form_className formData) "")
  && negb (String.eqb (form_section formData) "")
  && negb (String.eqb (form_description formData) "")
  && negb (String.eqb (form_url formData) "").

(** ** The remote store, the client state and the outcome of a handler *)

(** An error value thrown by a remote call or by the runtime. *)
Inductive Error :=
  | FirebaseError (code : string)
  | TypeError (message : string).

(** The three remote collections. *)
Record Store := mkStore {
  teachers : gset string;
  teachingLearning : gmap string Doc;
  activityLogs : list LogEntry
}.

(** A remote call as issued by the page. *)
Inductive Call :=
  | GetTeacher (uid : string)
  | QueryEntries (tid : string)
  | AddEntry (d : Doc)
  | UpdateEntry (entryId : string) (d : Doc)
  | DeleteEntry (entryId : string)
  | AddActivityLog (l : LogEntry).

(** A line of the diagnostic channel. *)
Inductive ConsoleLine :=
  | ConsoleLog (msg : string)
  | ConsoleError (msg : string) (err : option Error).

(** Everything a handler can read or change: the session user ([user?.id]),
    the remote store, the clock read by [new Date()], the oracle giving the
    outcome of each coming remote call ([Some e]: the call rejects with
    [e]; an exhausted oracle lets calls succeed), the calls issued so far
    with their outcome, the console, the rejections of promises nobody
    awaits, and the two [useState] cells of the page. *)
Record Sys := mkSys {
  user : jsstr;
  store : Store;
  clock : nat;
  faults : list (option Error);
  calls : list (Call * option Error);
  console : list ConsoleLine;
  unhandled : list Error;
  entries : Buckets;
  teacherId : jsstr
}.

Definition set_store (st : Store) (s : Sys) : Sys :=
  mkSys (user s) st (clock s) (faults s) (calls s) (console s) (unhandled s) (entries s) (teacherId s).
Definition set_faults (f : list (option Error)) (s : Sys) : Sys :=
  mkSys (user s) (store s) (clock s) f (calls s) (console s) (unhandled s) (entries s) (teacherId s).
Definition set_calls (c : list (Call * option Error)) (s : Sys) : Sys :=
  mkSys (user s) (store s) (clock s) (faults s) c (console s) (unhandled s) (entries s) (teacherId s).
Definition set_console (c : list ConsoleLine) (s : Sys) : Sys :=
  mkSys (user s) (store s) (clock s) (faults s) (calls s) c (unhandled s) (entries s) (teacherId s).
Definition set_unhandled (u : list Error) (s : Sys) : Sys :=
  mkSys (user s) (store s) (clock s) (faults s) (calls s) (console s) u (entries s) (teacherId s).
Definition set_entries (b : Buckets) (s : Sys) : Sys :=
  mkSys (user s) (store s) (clock s) (faults s) (calls s) (console s) (unhandled s) b (teacherId s).
Definition set_teacherId (t : jsstr) (s : Sys) : Sys :=
  mkSys (user s) (store s) (clock s) (faults s) (calls s) (console s) (unhandled s) (entries s) t.

(** How a handler ends: it returns, or an exception leaves it. *)
Inductive Outcome (A : Type) :=
  | Returned (a : A)
  | Threw (e : Error).
Arguments Returned {A} a.
Arguments Threw {A} e.

Definition M (A : Type) : Type := Sys → Outcome A * Sys.

Definition ret {A} (a : A) : M A := λ s, (Returned a, s).

Definition bind {A B} (m : M A) (k : A → M B) : M B := λ s,
  match m s with
  | (Returned a, s') => k a s'
  | (Threw e, s') => (Threw e, s')
  end.

Definition throw {A} (e : Error) : M A := λ s, (Threw e, s).

(** [try { m } catch (error) { h error }] *)
Definition try_catch {A} (m : M A) (h : Error → M A) : M A := λ s,
  match m s with
  | (Returned a, s') => (Returned a, s')
  | (Threw e, s') => h e s'
  end.

(** A call of an [async] function that is not awaited: the caller goes on
    whatever becomes of the promise; a rejection stays unhandled. *)
Definition detached {A} (m : M A) : M unit := λ s,
  match m s with
  | (Returned _, s') => (Returned (), s')
  | (Threw e, s') => (Returned (), set_unhandled (unhandled s' ++ [e]) s')
  end.

Definition gets {A} (f : Sys → A) : M A := λ s, (Returned (f s), s).
Definition modify (f : Sys → Sys) : M unit := λ s, (Returned (), f s).

Declare Scope handler_scope.
Delimit Scope handler_scope with handler.
Notation "'let*' x := m 'in' k" := (bind m (λ x, k))
  (at level 10, x name, m at level 100, k at level 200) : handler_scope.
Notation "m ;;; k" := (bind m (λ _, k))
  (at level 100, k at level 200, right associativity) : handler_scope.
Open Scope handler_scope.

Definition console_log (msg : string) : M unit :=
  modify (λ s, set_console (console s ++ [ConsoleLog msg]) s).
Definition console_error (msg : string) (err : option Error) : M unit :=
  modify (λ s, set_console (console s ++ [ConsoleError msg err]) s).

Definition setEntries (b : Buckets) : M unit := modify (set_entries b).
Definition setTeacherId (t : jsstr) : M unit := modify (set_teacherId t).

(** [await] of a remote call [c]: the oracle decides whether the call
    rejects; otherwise the store serves it with [serve], which may itself
    reject.  The call and its outcome are recorded. *)
Definition next_fault (s : Sys) : option Error * list (option Error) :=
  match faults s with
  | [] => (None, [])
  | f :: rest => (f, rest)
  end.

Definition record_call (c : Call) (o : option Error) (s : Sys) : Sys :=
  set_calls (calls s ++ [(c, o)]) s.

Definition remote {A} (c : Call) (serve : Store → Error + (A * Store)) : M A := λ s,
  let s1 := set_faults (next_fault s).2 s in
  match (next_fault s).1 with
  | Some e => (Threw e, record_call c (Some e) s1)
  | None =>
      match serve (store s1) with
      | inl e => (Threw e, record_call c (Some e) s1)
      | inr (a, st) => (Returned a, record_call c None (set_store st s1))
      end
  end.

(** ** The remote operations used by the page *)

(** [getDoc(doc(db, "teachers", uid))] followed by [.exists()]. *)
Definition getDoc_teachers (uid : string) : M bool :=
  remote (GetTeacher uid) (λ st, inr (bool_decide (uid ∈ teachers st), st)).

(** [getDocs(query(collection(db, "TeachingLearning"),
    where("teacherId", "==", tid)))]: the documents, with their
    identifiers, whose [teacherId] field equals [tid]. *)
Definition query_teacherId (tid : string) (tl : gmap string Doc) : list (string * Doc) :=
  map_to_list (filter (λ kd, kd.2 !! "teacherId" = Some tid) tl).

Definition getDocs_TeachingLearning (tid : string) : M (list (string * Doc)) :=
  remote (QueryEntries tid) (λ st, inr (query_teacherId tid (teachingLearning st), st)).

(** [addDoc(collection(db, "TeachingLearning"), d)]: the store assigns an
    identifier not in use. *)
Definition addDoc_TeachingLearning (d : Doc) : M unit :=
  remote (AddEntry d) (λ st,
    let tl := teachingLearning st in
    inr ((), mkStore (teachers st) (<[fresh (dom tl) := d]> tl) (activityLogs st))).

(** [updateDoc(doc(db, "TeachingLearning", entryId), d)]: the fields of [d]
    overwrite those of the stored document, its other fields stay; the call
    rejects when there is no such document. *)
Definition updateDoc_TeachingLearning (entryId : string) (d : Doc) : M unit :=
  remote (UpdateEntry entryId d) (λ st,
    let tl := teachingLearning st in
    match tl !! entryId with
    | Some old => inr ((), mkStore (teachers st) (<[entryId := d ∪ old]> tl) (activityLogs st))
    | None => inl (FirebaseError "not-found")
    end).

(** [deleteDoc(doc(db, "TeachingLearning", entryId))]: succeeds also when
    there is no such document. *)
Definition deleteDoc_TeachingLearning (entryId : string) : M unit :=
  remote (DeleteEntry entryId) (λ st,
    inr ((), mkStore (teachers st) (delete entryId (teachingLearning st)) (activityLogs st))).

(** [addDoc(collection(db, "activityLogs"), l)]. *)
Definition addDoc_activityLogs (l : LogEntry) : M unit :=
  remote (AddActivityLog l) (λ st,
    inr ((), mkStore (teachers st) (teachingLearning st) (activityLogs st ++ [l]))).

(** ** logActivity *)

Definition logActivity (actionType entity description : string) (userId : jsstr) : M unit :=
  try_catch
    (let* now := gets clock in
     let logEntry := mkLogEntry actionType entity description now userId in
     addDoc_activityLogs logEntry;;;
     console_log "Activity logged successfully!")
    (λ error, console_error "Error logging activity:" (Some error)).

(** ** fetchTeacherId and the effect on [user?.id] *)

(** The string when it is truthy. *)
Definition as_truthy (v : jsstr) : option string :=
  match v with
  | Some s => if String.eqb s "" then None else Some s
  | None => None
  end.

Definition fetchTeacherId : M unit :=
  try_catch
    (let* u := gets user in
     match as_truthy u with
     | None => console_error "User ID is not available" None
     | Some uid =>
         let* teacherDoc_exists := getDoc_teachers uid in
         if teacherDoc_exists : bool
         then setTeacherId (Some uid)
         else console_error "Teacher document does not exist." None
     end)
    (λ error, console_error "Error fetching teacher ID:" (Some error)).

(** ** fetchEntries *)

(** Reading a property of a plain object: an own property, a property
    inherited from [Object.prototype], or [undefined]. *)
Inductive Property (A : Type) :=
  | Own (a : A)
  | Inherited
  | Undefined.
Arguments Own {A} a.
Arguments Inherited {A}.
Arguments Undefined {A}.

Definition get_property {A} (o : gmap string A) (k : string) : Property A :=
  match o !! k with
  | Some a => Own a
  | None => if bool_decide (k ∈ object_prototype_keys) then Inherited else Undefined
  end.

(** The object pushed for a document of the snapshot. *)
Definition entry_of (d : string * Doc) : Entry :=
  let data := d.2 in
  mkEntry d.1 (data !! "title") (data !! "className") (data !! "section")
    (data !! "description") (data !! "url") (data !! "teacherId") (data !! "category").

(** The body of the [forEach] callback.  An own bucket is an array (truthy)
    and receives the entry; an inherited property is truthy too, but has no
    [push], so the call throws; [undefined] is falsy and the document is
    skipped. *)
Definition push_entry (updatedEntries : Buckets) (d : string * Doc) : Error + Buckets :=
  let key := property_key (d.2 !! "category") in
  match get_property updatedEntries key with
  | Own bucket => inr (<[key := bucket ++ [entry_of d]]> updatedEntries)
  | Inherited => inl (TypeError "updatedEntries[data.category].push is not a function")
  | Undefined => inr updatedEntries
  end.

Fixpoint forEach {A S : Type} (f : S → A → Error + S) (l : list A) (acc : S) : Error + S :=
  match l with
  | [] => inr acc
  | x :: rest =>
      match f acc x with
      | inl e => inl e
      | inr acc' => forEach f rest acc'
      end
  end.

Definition lift {A} (r : Error + A) : M A :=
  match r with
  | inl e => throw e
  | inr a => ret a
  end.

Definition fetchEntries : M unit :=
  let* t := gets teacherId in
  match as_truthy t with
  | None => ret ()
  | Some tid =>
      try_catch
        (let* querySnapshot := getDocs_TeachingLearning tid in
         let* updatedEntries := lift (forEach push_entry querySnapshot empty_buckets) in
         setEntries updatedEntries)
        (λ error, console_error "Error fetching entries:" (Some error))
  end.

(** The effect on [teacherId]. *)
Definition effect_teacherId : M unit :=
  let* t := gets teacherId in
  if truthy t then detached fetchEntries else ret ().

(** The effect on [user?.id]. *)
Definition effect_user : M unit :=
  let* u := gets user in
  if truthy u then detached fetchTeacherId else ret ().

(** Mounting the page: both state cells take their initial value, then the
    effects run.  The effect on [teacherId] runs after the first render,
    where [teacherId] is still [null] and it does nothing, and again when
    [fetchTeacherId] has set the identifier; with handlers run to completion
    one after the other, this is one run after [effect_user]. *)
Definition mount : M unit :=
  setEntries empty_buckets;;;
  setTeacherId None;;;
  effect_user;;;
  effect_teacherId.

(** ** addOrUpdateEntry *)

Definition dquote : string := String "034"%char EmptyString.

(** The template literals of the audit descriptions. *)
Definition describe (verb title category : string) : string :=
  verb +:+ " titled " +:+ dquote +:+ title +:+ dquote +:+ " in the " +:+
  dquote +:+ category +:+ dquote +:+ " category".

(** The object literal [newEntry]. *)
Definition newEntry (category title className section description url teacherId : string) : Doc :=
  <["category" := category]>
    (<["title" := title]>
      (<["className" := className]>
        (<["section" := section]>
          (<["description" := description]>
            (<["url" := url]>
              (<["teacherId" := teacherId]> ∅)))))).

Definition addOrUpdateEntry
    (category title className section description url : string) (entryId : jsstr) : M unit :=
  let* t := gets teacherId in
  match as_truthy t with
  | None => ret ()
  | Some tid =>
      let newEntry := newEntry category title className section description url tid in
      try_catch
        ((match as_truthy entryId with
          | Some eid =>
              updateDoc_TeachingLearning eid newEntry;;;
              let* u := gets user in
              logActivity "Edit" "TeachingLearning"
                (describe "Edited an entry" title category) u
          | None =>
              addDoc_TeachingLearning newEntry;;;
              let* u := gets user in
              logActivity "Add" "TeachingLearning"
                (describe "Added a new entry" title category) u
          end);;;
         detached fetchEntries)
        (λ error,
           console_error
             (if truthy entryId then "Error updating entry:" else "Error adding entry:")
             (Some error))
  end.

(** ** The category panel ([Card]) *)

Record CardState := mkCardState {
  showForm : bool;
  formData : FormData;
  viewMore : bool
}.

Definition empty_form : FormData := mkFormData "" "" "" "" "" "".

Definition initial_card : CardState := mkCardState false empty_form false.

(** The [onAddOrUpdate] prop handed to the panel of category [p]. *)
Definition onAddOrUpdate (p : Panel)
    (title className section description url : string) (entryId : jsstr) : M unit :=
  addOrUpdateEntry (panel_category p) title className section description url entryId.

(** [setFormData({ ...formData, [name]: value })] for the named inputs of
    the form; another name adds a property no handler reads. *)
Definition handleInputChange (name value : string) (c : CardState) : CardState :=
  let f := formData c in
  let f' :=
    if String.eqb name "title" then
      mkFormData (form_id f) value (form_className f) (form_section f) (form_description f) (form_url f)
    else if String.eqb name "className" then
      mkFormData (form_id f) (form_title f) value (form_section f) (form_description f) (form_url f)
    else if String.eqb name "section" then
      mkFormData (form_id f) (form_title f) (form_className f) value (form_description f) (form_url f)
    else if String.eqb name "description" then
      mkFormData (form_id f) (form_title f) (form_className f) (form_section f) value (form_url f)
    else if String.eqb name "url" then
      mkFormData (form_id f) (form_title f) (form_className f) (form_section f) (form_description f) value
    else f in
  mkCardState (showForm c) f' (viewMore c).

(** The Save button. *)
Definition handleAddOrUpdate (p : Panel) (c : CardState) : M CardState :=
  let f := formData c in
  detached
    (onAddOrUpdate p (form_title f) (form_className f) (form_section f)
       (form_description f) (form_url f) (as_truthy (Some (form_id f))));;;
  ret (mkCardState false empty_form (viewMore c)).

(** The Cancel button: [() => setShowForm(false)]. *)
Definition handleCancel (c : CardState) : CardState :=
  mkCardState false (formData c) (viewMore c).

(** The [+] button: [() => setShowForm(!showForm)]. *)
Definition toggleForm (c : CardState) : CardState :=
  mkCardState (negb (showForm c)) (formData c) (viewMore c).

(** ** handleDelete *)

Definition handleDelete (entryId title category : string) : M unit :=
  try_catch
    (deleteDoc_TeachingLearning entryId;;;
     let* u := gets user in
     logActivity "Delete" "TeachingLearning"
       (describe "Deleted an entry" title category) u;;;
     detached fetchEntries)
    (λ error, console_error "Error deleting entry:" (Some error)).

(** ** User actions that reach the store *)

Inductive Action :=
  | Save (p : Panel) (c : CardState)
  | Delete (entryId title category : string).

Definition perform (a : Action) : M unit :=
  match a with
  | Save p c => handleAddOrUpdate p c;;; ret ()
  | Delete entryId title category => detached (handleDelete entryId title category)
  end.

Fixpoint perform_all (l : list Action) : M unit :=
  match l with
  | [] => ret ()
  | a :: rest => perform a;;; perform_all rest
  end.

(** ** Observations on a run *)

(** The outcome the oracle holds for the [n]-th coming remote call. *)
Definition nth_fault (n : nat) (s : Sys) : option Error :=
  default None (faults s !! n).

(** The errors of the remote calls that failed. *)
Definition failed (cs : list (Call * option Error)) : list Error :=
  omap snd cs.

(** The errors written to the console by [console.error]. *)
Definition logged (co : list ConsoleLine) : list Error :=
  omap (λ l, match l with ConsoleError _ err => err | ConsoleLog _ => None end) co.

(** The exception leaving a handler, if any. *)
Definition pending {A} (o : Outcome A) : list Error :=
  match o with
  | Returned _ => []
  | Threw e => [e]
  end.

Definition is_query (c : Call * option Error) : bool :=
  match c.1 with
  | QueryEntries _ => true
  | _ => false
  end.

Definition is_lookup (c : Call * option Error) : bool :=
  match c.1 with
  | GetTeacher _ => true
  | _ => false
  end.

(** The audit record of an action by the session user. *)
Definition audit (action description : string) (s : Sys) : LogEntry :=
  mkLogEntry action "TeachingLearning" description (clock s) (user s).

(** The documents of a snapshot that belong to the bucket named [k]. *)
Definition bucket_of (k : string) (docs : list (string * Doc)) : list Entry :=
  entry_of <$> filter (λ d, property_key (d.2 !! "category") = k) docs.

(** ** Statements about a run *)

(** The field names of the object literal [newEntry]. *)
Definition entry_fields : list string :=
  ["category"; "title"; "className"; "section"; "description"; "url"; "teacherId"].

(** The write the Save button of panel [p] issues for the form [f] when the
    teacher identifier is [tid]. *)
Definition mutation_call (p : Panel) (f : FormData) (tid : string) : Call :=
  let d := newEntry (panel_category p) (form_title f) (form_className f)
             (form_section f) (form_description f) (form_url f) tid in
  match as_truthy (Some (form_id f)) with
  | Some eid => UpdateEntry eid d
  | None => AddEntry d
  end.

(** What a mutation whose store write succeeded leaves behind: the audit
    record [l] is in the activity log exactly when the write to the log
    succeeded too, and the calls issued are the mutation, then the write of
    [l], then the query of the re-fetch. *)
Definition audited (s s' : Sys) (mutation : Call) (l : LogEntry)
    (refetch : list (Call * option Error)) : Prop :=
  activityLogs (store s')
  = activityLogs (store s) ++ match nth_fault 1 s with None => [l] | Some _ => [] end
  ∧ calls s'
    = calls s ++ (mutation, None) :: (AddActivityLog l, nth_fault 1 s) :: refetch.

(** The query of the re-fetch; [fetchEntries] issues none while the
    teacher identifier is not resolved. *)
Definition refetch_query (s : Sys) : list (Call * option Error) :=
  match as_truthy (teacherId s) with
  | Some tid => [(QueryEntries tid, nth_fault 2 s)]
  | None => []
  end.

(** What every handler keeps while the teacher identifier is [null]. *)
Definition quiet_step (s s' : Sys) : Prop :=
  teacherId s' = None
  ∧ entries s' = entries s
  ∧ List.filter is_query (calls s') = List.filter is_query (calls s)
  ∧ List.filter is_lookup (calls s') = List.filter is_lookup (calls s).

(** [m] always returns normally. *)
Definition returns {A} (m : M A) : Prop :=
  ∀ s, ∃ a, (m s).1 = Returned a.

(** [m] leaves no rejection unhandled, only adds to the calls and to the
    console, and every error of a remote call that failed while it ran is
    on the console or is the exception leaving [m]. *)
Definition contained {A} (m : M A) : Prop :=
  ∀ s, unhandled (m s).2 = unhandled s
       ∧ ∃ cs co, calls (m s).2 = calls s ++ cs
                  ∧ console (m s).2 = console s ++ co
                  ∧ failed cs ⊆+ logged co ++ pending (m s).1.

(** [m] returns normally, leaves no rejection unhandled, and every error
    of a remote call that failed while it ran is on the console. *)
Definition swallows {A} (m : M A) : Prop :=
  ∀ s, ∃ a cs co,
    (m s).1 = Returned a
    ∧ unhandled (m s).2 = unhandled s
    ∧ calls (m s).2 = calls s ++ cs
    ∧ console (m s).2 = console s ++ co
    ∧ failed cs ⊆+ logged co.

(** ** Example systems *)

(** A teacher ["t1"] with one entry under "Course Design" and one document
    whose category is the string ["constructor"]; the page still shows an
    entry fetched earlier under "Student Feedback". *)
Definition doc_course_design : Doc :=
  newEntry "Course Design" "Syllabus" "1st Year" "A" "Outline" "https://example.com/a" "t1".

Definition doc_constructor : Doc :=
  newEntry "constructor" "Stray" "2nd Year" "B" "Imported" "https://example.com/b" "t1".

Definition stale_entry : Entry :=
  mkEntry "e0" (Some "Survey") (Some "3rd Year") (Some "C") (Some "Old")
    (Some "https://example.com/c") (Some "t1") (Some "Student Feedback").

Definition stale_buckets : Buckets :=
  <["Student Feedback" := [stale_entry]]> empty_buckets.

Definition store_inherited : Store :=
  mkStore {["t1"]} (<["e1" := doc_course_design]> (<["e2" := doc_constructor]> ∅)) [].

Definition sys_inherited : Sys :=
  mkSys (Some "t1") store_inherited 0 [] [] [] [] stale_buckets (Some "t1").

(** The same teacher with the "Course Design" entry only; the oracle, the
    displayed buckets and the resolved identifier vary. *)
Definition store_plain : Store :=
  mkStore {["t1"]} (<["e1" := doc_course_design]> ∅) [].

Definition sys_with (fl : list (option Error)) (b : Buckets) (t : jsstr) : Sys :=
  mkSys (Some "t1") store_plain 0 fl [] [] [] b t.

Definition unavailable : Error := FirebaseError "unavailable".

(** A user without a teacher document. *)
Definition sys_no_teacher : Sys :=
  mkSys (Some "u9") store_plain 0 [] [] [] [] stale_buckets (Some "stale").

(** Nobody is signed in. *)
Definition sys_no_user : Sys :=
  mkSys None store_plain 0 [] [] [] [] empty_buckets None.

Definition blank_card : CardState := mkCardState true empty_form false.

Definition typed_card : CardState :=
  mkCardState true
    (mkFormData "" "Flipped Classroom" "2nd Year" "B" "Group work" "https://example.com/doc")
    false.

Definition edit_card : CardState :=
  mkCardState true
    (mkFormData "e1" "Syllabus" "1st Year" "A" "Revised outline" "https://example.com/a")
    true.

(** The user opens the form of a fresh panel and types a title. *)
Definition draft_card : CardState :=
  handleInputChange "title" "Draft" (toggleForm initial_card).

(** The store accepts the write of the entry, the write of the audit
    record fails. *)
Definition sys_log_fails : Sys := sys_with [None; Some unavailable] empty_buckets (Some "t1").


(** A sequence of user actions. *)
Definition example_actions : list Action :=
  [Save CourseDesign typed_card; Delete "e1" "Syllabus" "Course Design"].

(** ** The other handlers of the panel *)









(** What the panel of [p] receives as [entries={entries[category]}];
    [None] is [undefined]. *)
Definition panel_entries (p : Panel) (s : Sys) : option (list Entry) :=
  entries s !! panel_category p.

(** ** Statements about the store and the display *)

(** No document of teacher [tid] has a category that names a property of
    [Object.prototype]. *)
Definition displayable (tid : string) (tl : gmap string Doc) : Prop :=
  Forall (λ d, property_key (d.2 !! "category") ∉ object_prototype_keys)
    (query_teacherId tid tl).

(** [e] is the entry of a document of teacher [tid] stored under the
    category named [k]. *)
Definition stored_entry (tid k : string) (tl : gmap string Doc) (e : Entry) : Prop :=
  ∃ i doc, tl !! i = Some doc
           ∧ doc !! "teacherId" = Some tid
           ∧ property_key (doc !! "category") = k
           ∧ e = entry_of (i, doc).

(** What no handler of the page touches: the session user, the clock, the
    teacher identifier once the page is mounted, the teachers collection;
    and the activity log only grows at its end. *)
Definition kept (s s' : Sys) : Prop :=
  user s' = user s
  ∧ clock s' = clock s
  ∧ teacherId s' = teacherId s
  ∧ teachers (store s') = teachers (store s)
  ∧ activityLogs (store s) `prefix_of` activityLogs (store s').


(** ** Further example systems *)

(** Teacher ["t1"] with the identifier resolved and every call succeeding;
    with the first call rejected; before mounting; before mounting with
    the lookup rejected. *)
Definition sys_ok : Sys := sys_with [] stale_buckets (Some "t1").
Definition sys_write_fails : Sys := sys_with [Some unavailable] stale_buckets (Some "t1").
Definition sys_mounting : Sys := sys_with [] stale_buckets None.
Definition sys_lookup_fails : Sys := sys_with [Some unavailable] stale_buckets None.

(** * Properties *)

(** ** validateForm *)

Lemma eqb_empty_false (x : string) : negb (String.eqb x "") = true ↔ x ≠ "".
Proof. rewrite negb_true_iff. apply String.eqb_neq. Qed.

(** C5: [validateForm] answers [true] exactly when title, className,
    section, description and url are all non-empty, and [false] exactly
    when one of them is the empty string. *)
Theorem validateForm_true_iff_all_nonempty (f : FormData) :
  (validateForm f = true ↔
     form_title f ≠ "" ∧ form_className f ≠ "" ∧ form_section f ≠ "" ∧
     form_description f ≠ "" ∧ form_url f ≠ "")
  ∧ (validateForm f = false ↔
       form_title f = "" ∨ form_className f = "" ∨ form_section f = "" ∨
       form_description f = "" ∨ form_url f = "").
Proof.
  unfold validateForm. split.
  - rewrite !andb_true_iff, !eqb_empty_false. tauto.
  - rewrite !andb_false_iff, !negb_false_iff, !String.eqb_eq. tauto.
Qed.

(** ** Running a handler symbolically *)

(** [run] unfolds the monad and the handlers and reduces the state
    projections; what is left are the case distinctions of the handler. *)
Create HintDb monad_ops.
#[local] Hint Unfold bind ret throw try_catch detached gets modify lift
  console_log console_error setEntries setTeacherId
  next_fault record_call remote
  getDoc_teachers getDocs_TeachingLearning addDoc_TeachingLearning
  updateDoc_TeachingLearning deleteDoc_TeachingLearning addDoc_activityLogs : monad_ops.

Create HintDb handlers.
#[local] Hint Unfold logActivity fetchTeacherId fetchEntries effect_teacherId
  effect_user mount addOrUpdateEntry onAddOrUpdate handleAddOrUpdate
  handleDelete perform : handlers.

Ltac reduce :=
  cbn [user store clock faults calls console unhandled entries teacherId
       teachers teachingLearning activityLogs
       set_store set_faults set_calls set_console set_unhandled set_entries
       set_teacherId fst snd] in *.

Ltac run :=
  repeat autounfold with handlers in *;
  repeat autounfold with monad_ops in *;
  reduce.

Lemma as_truthy_truthy (v : jsstr) (x : string) : as_truthy v = Some x → truthy v = true.
Proof. destruct v as [y|]; simpl; [destruct (String.eqb y "")|]; naive_solver. Qed.

(** ** Errors never leave a handler *)

Section Rules.
Context {A B : Type}.

Lemma returns_ret (a : A) : returns (ret a).
Proof. intros s. by exists a. Qed.

Lemma returns_gets (f : Sys → A) : returns (gets f).
Proof. intros s. by eexists. Qed.

Lemma returns_modify (f : Sys → Sys) : returns (modify f).
Proof. intros s. by eexists. Qed.

Lemma returns_bind (m : M A) (k : A → M B) :
  returns m → (∀ a, returns (k a)) → returns (bind m k).
Proof.
  intros Hm Hk s. unfold bind. destruct (Hm s) as [a Ha].
  destruct (m s) as [o s1]. simpl in Ha. subst o. apply Hk.
Qed.

Lemma returns_try_catch (m : M A) (h : Error → M A) :
  (∀ e, returns (h e)) → returns (try_catch m h).
Proof.
  intros Hh s. unfold try_catch. destruct (m s) as [[a|e] s1]; [by exists a|apply Hh].
Qed.

Lemma returns_detached (m : M A) : returns (detached m).
Proof. intros s. unfold detached. destruct (m s) as [[a|e] s1]; by exists (). Qed.

Lemma contained_ret (a : A) : contained (ret a).
Proof. intros s. split; [done|]. exists [], []. by rewrite !app_nil_r. Qed.

Lemma contained_gets (f : Sys → A) : contained (gets f).
Proof. intros s. split; [done|]. exists [], []. by rewrite !app_nil_r. Qed.

Lemma contained_throw (e : Error) : contained (@throw A e).
Proof.
  intros s. split; [done|]. exists [], []. rewrite !app_nil_r.
  repeat split. apply submseteq_nil_l.
Qed.

Lemma contained_lift (r : Error + A) : contained (lift r).
Proof. destruct r; [apply contained_throw | apply contained_ret]. Qed.

Lemma contained_remote (c : Call) (serve : Store → Error + (A * Store)) :
  contained (remote c serve).
Proof.
  intros s. destruct s as [u st ck fl cl co uh en t]. unfold remote. reduce.
  unfold next_fault. reduce.
  destruct fl as [|[e|] fl]; reduce; try destruct (serve st) as [e'|[a st']]; reduce.
  all: split; [done|]; eexists [_], []; rewrite app_nil_r; repeat split; reflexivity.
Qed.

Lemma contained_bind (m : M A) (k : A → M B) :
  contained m → (∀ a, contained (k a)) → contained (bind m k).
Proof.
  intros Hm Hk s. unfold bind. destruct (Hm s) as (Hu & cs & co & Hcs & Hco & Hin).
  destruct (m s) as [[a|e] s1]; simpl in *.
  - destruct (Hk a s1) as (Hu' & cs' & co' & Hcs' & Hco' & Hin').
    split; [congruence|]. exists (cs ++ cs'), (co ++ co').
    rewrite Hcs', Hco', Hcs, Hco, <- !app_assoc. split; [done|]. split; [done|].
    unfold failed, logged in *. rewrite !omap_app, <- app_assoc.
    rewrite app_nil_r in Hin. by apply submseteq_app.
  - split; [done|]. by exists cs, co.
Qed.

Lemma contained_detached (m : M A) : returns m → contained m → contained (detached m).
Proof.
  intros Hr Hm s. unfold detached. destruct (Hr s) as [a Ha].
  destruct (Hm s) as (Hu & cs & co & Hcs & Hco & Hin).
  destruct (m s) as [o s1]; simpl in *. subst o. split; [done|]. by exists cs, co.
Qed.
End Rules.

Lemma contained_try_catch (m : M unit) (msg : string) :
  contained m →
  contained (try_catch m (λ error, console_error msg (Some error))).
Proof.
  intros Hm s. unfold try_catch. destruct (Hm s) as (Hu & cs & co & Hcs & Hco & Hin).
  destruct (m s) as [[a'|e] s1]; simpl in *.
  - split; [done|]. by exists cs, co.
  - destruct s1. run. split; [done|]. exists cs, (co ++ [ConsoleError msg (Some e)]).
    rewrite Hco, <- app_assoc. split; [done|]. split; [done|].
    unfold logged in *. by rewrite omap_app, app_nil_r.
Qed.

Lemma contained_modify_console (l : ConsoleLine) :
  contained (modify (λ s, set_console (console s ++ [l]) s)).
Proof.
  intros s. destruct s. unfold modify. reduce. split; [done|]. exists [], [l].
  rewrite app_nil_r. repeat split. apply submseteq_nil_l.
Qed.

Lemma contained_console_log (msg : string) : contained (console_log msg).
Proof. apply contained_modify_console. Qed.

Lemma contained_console_error (msg : string) (err : option Error) :
  contained (console_error msg err).
Proof. apply contained_modify_console. Qed.

Lemma contained_setEntries (b : Buckets) : contained (setEntries b).
Proof. intros s. destruct s. split; [done|]. exists [], []. by rewrite !app_nil_r. Qed.

Lemma contained_setTeacherId (t : jsstr) : contained (setTeacherId t).
Proof. intros s. destruct s. split; [done|]. exists [], []. by rewrite !app_nil_r. Qed.

Lemma returns_console_error (msg : string) (err : option Error) :
  returns (console_error msg err).
Proof. apply returns_modify. Qed.

Create HintDb contained.
#[local] Hint Resolve contained_ret contained_gets contained_lift contained_remote
  contained_console_log contained_console_error contained_setEntries
  contained_setTeacherId contained_try_catch contained_detached
  returns_ret returns_gets returns_modify returns_try_catch returns_detached
  returns_console_error : contained.

Ltac handler_cases :=
  repeat first
    [ solve [eauto with contained]
    | progress cbv beta zeta
    | match goal with
      | |- contained (bind _ _) => apply contained_bind; [|intros ?]
      | |- contained (try_catch _ _) => apply contained_try_catch
      | |- contained (detached _) => apply contained_detached
      | |- returns (bind _ _) => apply returns_bind; [|intros ?]
      | |- contained (match ?x with _ => _ end) => destruct x
      | |- returns (match ?x with _ => _ end) => destruct x
      end ].

Lemma contained_logActivity (actionType entity description : string) (userId : jsstr) :
  contained (logActivity actionType entity description userId).
Proof. unfold logActivity, addDoc_activityLogs. handler_cases. Qed.

Lemma returns_logActivity (actionType entity description : string) (userId : jsstr) :
  returns (logActivity actionType entity description userId).
Proof. unfold logActivity. handler_cases. Qed.

Lemma contained_fetchTeacherId : contained fetchTeacherId.
Proof. unfold fetchTeacherId, getDoc_teachers. handler_cases. Qed.

Lemma returns_fetchTeacherId : returns fetchTeacherId.
Proof. unfold fetchTeacherId. handler_cases. Qed.

Lemma contained_fetchEntries : contained fetchEntries.
Proof. unfold fetchEntries, getDocs_TeachingLearning. handler_cases. Qed.

Lemma returns_fetchEntries : returns fetchEntries.
Proof. unfold fetchEntries. handler_cases. Qed.

#[local] Hint Resolve contained_logActivity returns_logActivity contained_fetchTeacherId
  returns_fetchTeacherId contained_fetchEntries returns_fetchEntries : contained.

Lemma contained_addOrUpdateEntry
    (category title className section description url : string) (entryId : jsstr) :
  contained (addOrUpdateEntry category title className section description url entryId).
Proof.
  unfold addOrUpdateEntry, updateDoc_TeachingLearning, addDoc_TeachingLearning.
  handler_cases.
Qed.

Lemma returns_addOrUpdateEntry
    (category title className section description url : string) (entryId : jsstr) :
  returns (addOrUpdateEntry category title className section description url entryId).
Proof. unfold addOrUpdateEntry. handler_cases. Qed.

Lemma contained_handleDelete (entryId title category : string) :
  contained (handleDelete entryId title category).
Proof. unfold handleDelete, deleteDoc_TeachingLearning. handler_cases. Qed.

Lemma returns_handleDelete (entryId title category : string) :
  returns (handleDelete entryId title category).
Proof. unfold handleDelete. handler_cases. Qed.

#[local] Hint Resolve contained_addOrUpdateEntry returns_addOrUpdateEntry
  contained_handleDelete returns_handleDelete : contained.

Lemma contained_handleAddOrUpdate (p : Panel) (c : CardState) :
  contained (handleAddOrUpdate p c).
Proof. unfold handleAddOrUpdate, onAddOrUpdate. handler_cases. Qed.

Lemma returns_handleAddOrUpdate (p : Panel) (c : CardState) :
  returns (handleAddOrUpdate p c).
Proof. unfold handleAddOrUpdate, onAddOrUpdate. handler_cases. Qed.

Lemma contained_mount : contained mount.
Proof. unfold mount, effect_user, effect_teacherId. handler_cases. Qed.

Lemma returns_mount : returns mount.
Proof. unfold mount, effect_user, effect_teacherId. handler_cases. Qed.

Lemma swallows_intro {A} (m : M A) : returns m → contained m → swallows m.
Proof.
  intros Hr Hm s. destruct (Hr s) as [a Ha].
  destruct (Hm s) as (Hu & cs & co & Hcs & Hco & Hin).
  exists a, cs, co. rewrite Ha in Hin. simpl in Hin. rewrite app_nil_r in Hin. done.
Qed.

(** C8: the audit logger, the teacher lookup, the entry fetch, the add or
    update, the delete, and with them the Save button and the mounting of
    the page, return normally from every state and under every outcome of
    their remote calls; no promise they leave unawaited rejects; and the
    error of every remote call that failed is on the console. *)
Theorem remote_errors_are_caught_and_logged :
  (∀ actionType entity description userId,
     swallows (logActivity actionType entity description userId))
  ∧ swallows fetchTeacherId
  ∧ swallows fetchEntries
  ∧ (∀ category title className section description url entryId,
       swallows (addOrUpdateEntry category title className section description url entryId))
  ∧ (∀ entryId title category, swallows (handleDelete entryId title category))
  ∧ (∀ p c, swallows (handleAddOrUpdate p c))
  ∧ swallows mount.
Proof.
  repeat split; intros; apply swallows_intro; auto with contained.
  - apply returns_handleAddOrUpdate.
  - apply contained_handleAddOrUpdate.
  - apply returns_mount.
  - apply contained_mount.
Qed.

(** ** addOrUpdateEntry without a teacher identifier *)

Lemma addOrUpdateEntry_unresolved
    (category title className section description url : string) (entryId : jsstr) (s : Sys) :
  as_truthy (teacherId s) = None →
  addOrUpdateEntry category title className section description url entryId s
  = (Returned (), s).
Proof. intros H. destruct s; run. rewrite H. reflexivity. Qed.

(** C9: while the teacher identifier is [null], [addOrUpdateEntry] returns
    at once, whatever its arguments: the whole state, and with it the entry
    store, the activity log and the list of issued calls (no write, no audit
    record, no query of a re-fetch), is as before. *)
Theorem addOrUpdateEntry_unresolved_noop
    (category title className section description url : string) (entryId : jsstr) (s : Sys) :
  teacherId s = None →
  addOrUpdateEntry category title className section description url entryId s
  = (Returned (), s).
Proof. intros H. apply addOrUpdateEntry_unresolved. by rewrite H. Qed.

Lemma addOrUpdateEntry_unresolved_noop_witness :
  teacherId (sys_with [] empty_buckets None) = None
  ∧ addOrUpdateEntry "Course Design" "Syllabus" "1st Year" "A" "Outline"
      "https://example.com/a" (Some "e1") (sys_with [] empty_buckets None)
    = (Returned (), sys_with [] empty_buckets None).
Proof.
  split; [reflexivity|].
  apply (addOrUpdateEntry_unresolved_noop "Course Design" "Syllabus" "1st Year" "A"
           "Outline" "https://example.com/a" (Some "e1") (sys_with [] empty_buckets None)).
  reflexivity.
Defined.

(** ** fetchEntries *)

(** C4: when the query of [fetchEntries] rejects, with whatever error, the
    handler returns normally, the error is written to the console, and the
    bucketed entries (like the identifier and the store) are exactly as
    before. *)
Theorem fetchEntries_query_failure_keeps_entries (s : Sys) (tid : string) (e : Error) :
  as_truthy (teacherId s) = Some tid →
  nth_fault 0 s = Some e →
  (fetchEntries s).1 = Returned ()
  ∧ entries (fetchEntries s).2 = entries s
  ∧ teacherId (fetchEntries s).2 = teacherId s
  ∧ store (fetchEntries s).2 = store s
  ∧ calls (fetchEntries s).2 = calls s ++ [(QueryEntries tid, Some e)]
  ∧ console (fetchEntries s).2
    = console s ++ [ConsoleError "Error fetching entries:" (Some e)].
Proof.
  intros Ht Hf. destruct s as [u st ck fl cl co uh en t].
  unfold nth_fault in Hf. run. rewrite Ht.
  destruct fl as [|[e'|] fl]; simplify_eq/=. run. done.
Qed.

Lemma fetchEntries_query_failure_keeps_entries_witness :
  as_truthy (teacherId (sys_with [Some unavailable] stale_buckets (Some "t1"))) = Some "t1"
  ∧ nth_fault 0 (sys_with [Some unavailable] stale_buckets (Some "t1")) = Some unavailable
  ∧ entries (fetchEntries (sys_with [Some unavailable] stale_buckets (Some "t1"))).2
    = stale_buckets
  ∧ console (fetchEntries (sys_with [Some unavailable] stale_buckets (Some "t1"))).2
    = [ConsoleError "Error fetching entries:" (Some unavailable)].
Proof.
  split; [reflexivity|]. split; [reflexivity|].
  pose proof (fetchEntries_query_failure_keeps_entries
                (sys_with [Some unavailable] stale_buckets (Some "t1")) "t1" unavailable
                eq_refl eq_refl) as (_ & He & _ & _ & _ & Hc).
  exact (conj He Hc).
Defined.

Lemma bucket_of_cons (k : string) (d : string * Doc) (docs : list (string * Doc)) :
  bucket_of k (d :: docs) = bucket_of k [d] ++ bucket_of k docs.
Proof.
  unfold bucket_of. rewrite !filter_cons, filter_nil.
  case_decide; simpl; done.
Qed.

Lemma push_entry_lookup (acc acc' : Buckets) (d : string * Doc) (k : string) :
  push_entry acc d = inr acc' →
  acc' !! k = (λ l, l ++ bucket_of k [d]) <$> acc !! k.
Proof.
  unfold push_entry, get_property, bucket_of. rewrite filter_cons, filter_nil.
  destruct (acc !! property_key (d.2 !! "category")) as [l|] eqn:E.
  - intros [= <-]. case_decide as Hk.
    + rewrite Hk in *. rewrite lookup_insert_eq, E. done.
    + rewrite lookup_insert_ne by done. simpl.
      destruct (acc !! k); simpl; [by rewrite app_nil_r | done].
  - case_bool_decide; [done|]. intros [= <-]. case_decide as Hk.
    + rewrite <- Hk, E. done.
    + simpl. destruct (acc !! k); simpl; [by rewrite app_nil_r | done].
Qed.

Lemma forEach_push_entry_lookup (docs : list (string * Doc)) (acc b : Buckets) (k : string) :
  forEach push_entry docs acc = inr b →
  b !! k = (λ l, l ++ bucket_of k docs) <$> acc !! k.
Proof.
  revert acc. induction docs as [|d docs IH]; intros acc; simpl.
  - intros [= <-]. destruct (acc !! k); simpl; [by rewrite app_nil_r | done].
  - destruct (push_entry acc d) as [e|acc'] eqn:E; [done|].
    intros H. rewrite (IH _ H), (push_entry_lookup _ _ _ k E), (bucket_of_cons k d docs).
    destruct (acc !! k); simpl; [by rewrite app_assoc | done].
Qed.

Lemma forEach_push_entry_returns (docs : list (string * Doc)) (acc : Buckets) :
  Forall (λ d, property_key (d.2 !! "category") ∉ object_prototype_keys) docs →
  ∃ b, forEach push_entry docs acc = inr b.
Proof.
  intros H. revert acc. induction H as [|d docs Hd _ IH]; intros acc; simpl; [eauto|].
  unfold push_entry at 1, get_property.
  destruct (acc !! _); [apply IH|]. rewrite (bool_decide_eq_false_2 _ Hd). apply IH.
Qed.

Lemma forEach_push_entry_throws (docs : list (string * Doc)) (acc : Buckets) (d : string * Doc) :
  d ∈ docs →
  property_key (d.2 !! "category") ∈ object_prototype_keys →
  acc !! property_key (d.2 !! "category") = None →
  forEach push_entry docs acc
  = inl (TypeError "updatedEntries[data.category].push is not a function").
Proof.
  intros Hin Hk. revert acc. induction Hin as [d docs|d d' docs _ IH]; intros acc Hacc; simpl.
  - unfold push_entry, get_property. rewrite Hacc, (bool_decide_eq_true_2 _ Hk). done.
  - destruct (push_entry acc d') as [e|acc'] eqn:E.
    + revert E. unfold push_entry, get_property.
      destruct (acc !! property_key (d'.2 !! "category")); [done|].
      case_bool_decide; simpl; [|done]. by intros [= <-].
    + apply IH; [done|]. rewrite (push_entry_lookup _ _ _ _ E), Hacc. done.
Qed.

Lemma fetchEntries_returned (s : Sys) (tid : string) (b : Buckets) :
  as_truthy (teacherId s) = Some tid →
  nth_fault 0 s = None →
  forEach push_entry (query_teacherId tid (teachingLearning (store s))) empty_buckets = inr b →
  fetchEntries s
  = (Returned (),
     set_entries b (record_call (QueryEntries tid) None (set_faults (tail (faults s)) s))).
Proof.
  intros Ht Hf Hb. destruct s as [u st ck fl cl co uh en t].
  unfold nth_fault in Hf. run. rewrite Ht.
  destruct fl as [|[e'|] fl]; simplify_eq/=; run; rewrite Hb; run; done.
Qed.

Lemma fetchEntries_forEach_threw (s : Sys) (tid : string) (e : Error) :
  as_truthy (teacherId s) = Some tid →
  nth_fault 0 s = None →
  forEach push_entry (query_teacherId tid (teachingLearning (store s))) empty_buckets = inl e →
  fetchEntries s
  = (Returned (),
     set_console (console s ++ [ConsoleError "Error fetching entries:" (Some e)])
       (record_call (QueryEntries tid) None (set_faults (tail (faults s)) s))).
Proof.
  intros Ht Hf Hb. destruct s as [u st ck fl cl co uh en t].
  unfold nth_fault in Hf. run. rewrite Ht.
  destruct fl as [|[e'|] fl]; simplify_eq/=; run; rewrite Hb; run; done.
Qed.

Lemma empty_buckets_panel (p : Panel) : empty_buckets !! panel_category p = Some [].
Proof. destruct p; reflexivity. Qed.

Lemma empty_buckets_other (k : string) :
  (∀ p, k ≠ panel_category p) → empty_buckets !! k = None.
Proof.
  intros H. unfold empty_buckets.
  pose proof (H CourseDesign). pose proof (H PedagogicalInnovations).
  pose proof (H StudentFeedback). pose proof (H AcademicResults). simpl in *.
  rewrite !lookup_insert_ne by done. apply lookup_empty.
Qed.

(** When the query succeeds and no returned document has a category that
    names a property of [Object.prototype], the new state holds, for each
    of the four buckets, exactly the returned documents of that category,
    once each and in the order of the snapshot, and nothing else; the
    previous state is replaced. *)
Lemma fetchEntries_partition (s : Sys) (tid : string) :
  as_truthy (teacherId s) = Some tid →
  nth_fault 0 s = None →
  let docs := query_teacherId tid (teachingLearning (store s)) in
  Forall (λ d, property_key (d.2 !! "category") ∉ object_prototype_keys) docs →
  (fetchEntries s).1 = Returned ()
  ∧ (∀ p, entries (fetchEntries s).2 !! panel_category p
          = Some (bucket_of (panel_category p) docs))
  ∧ (∀ k, (∀ p, k ≠ panel_category p) → entries (fetchEntries s).2 !! k = None).
Proof.
  intros Ht Hf docs Hdocs.
  destruct (forEach_push_entry_returns docs empty_buckets Hdocs) as [b Hb].
  rewrite (fetchEntries_returned s tid b Ht Hf Hb). cbn [fst snd].
  replace (entries _) with b by (by destruct s).
  split; [done|]. split.
  - intros p. rewrite (forEach_push_entry_lookup _ _ _ _ Hb), empty_buckets_panel. done.
  - intros k Hk. rewrite (forEach_push_entry_lookup _ _ _ _ Hb), empty_buckets_other; done.
Qed.

(** When the query succeeds and a returned document has a category that
    names a property of [Object.prototype], the [push] throws, the error is
    caught and logged, and the previous state stays. *)
Lemma fetchEntries_inherited_category (s : Sys) (tid : string) (d : string * Doc) :
  as_truthy (teacherId s) = Some tid →
  nth_fault 0 s = None →
  d ∈ query_teacherId tid (teachingLearning (store s)) →
  property_key (d.2 !! "category") ∈ object_prototype_keys →
  (fetchEntries s).1 = Returned ()
  ∧ entries (fetchEntries s).2 = entries s
  ∧ console (fetchEntries s).2
    = console s ++ [ConsoleError "Error fetching entries:"
        (Some (TypeError "updatedEntries[data.category].push is not a function"))].
Proof.
  intros Ht Hf Hd Hk.
  assert (∀ p, property_key (d.2 !! "category") ≠ panel_category p) as Hp.
  { intros p Hp. rewrite Hp in Hk. apply list_elem_of_In in Hk.
    destruct p; simpl in Hk; intuition discriminate. }
  rewrite (fetchEntries_forEach_threw s tid _ Ht Hf
             (forEach_push_entry_throws _ empty_buckets d Hd Hk
                (empty_buckets_other _ Hp))).
  by destruct s.
Qed.

(** C1, at a snapshot holding a document of category ["constructor"]: the
    query returns the "Course Design" entry [e1] and the stray document
    [e2]; the lookup [updatedEntries["constructor"]] finds the inherited
    constructor, the [push] throws, and [fetchEntries] logs the error and
    leaves the previous buckets: [e1] is not placed under "Course Design"
    and the stale entry stays under "Student Feedback". *)
Theorem fetchEntries_constructor_category_keeps_stale_state :
  query_teacherId "t1" (teachingLearning (store sys_inherited))
    = [("e1", doc_course_design); ("e2", doc_constructor)]
  ∧ bucket_of "Course Design" (query_teacherId "t1" (teachingLearning (store sys_inherited)))
    = [entry_of ("e1", doc_course_design)]
  ∧ (fetchEntries sys_inherited).1 = Returned ()
  ∧ entries (fetchEntries sys_inherited).2 !! "Course Design" = Some []
  ∧ entries (fetchEntries sys_inherited).2 !! "Student Feedback" = Some [stale_entry]
  ∧ entries (fetchEntries sys_inherited).2 = entries sys_inherited
  ∧ console (fetchEntries sys_inherited).2
    = [ConsoleError "Error fetching entries:"
         (Some (TypeError "updatedEntries[data.category].push is not a function"))].
Proof. repeat split; vm_compute; reflexivity. Qed.

(** ** Case analysis on the oracle *)

Ltac observe :=
  cbn [nth_fault from_option Datatypes.id lookup list_lookup tail faults] in *.

Ltac forEach_cases :=
  repeat (match goal with
          | |- context [forEach ?f ?l ?a] => destruct (forEach f l a) eqn:?
          end; reduce).

(** ** Documents written by addOrUpdateEntry *)

Lemma newEntry_lookup_other (category title className section description url tid k : string) :
  k ∉ entry_fields →
  newEntry category title className section description url tid !! k = None.
Proof.
  intros Hk. unfold newEntry.
  rewrite !lookup_insert_ne; [apply lookup_empty|..];
    intros <-; apply Hk; unfold entry_fields; set_solver.
Qed.

Lemma union_newEntry_lookup (category title className section description url tid : string)
    (old : Doc) :
  let doc := newEntry category title className section description url tid ∪ old in
  (doc !! "category" = Some category ∧ doc !! "title" = Some title
   ∧ doc !! "className" = Some className ∧ doc !! "section" = Some section
   ∧ doc !! "description" = Some description ∧ doc !! "url" = Some url
   ∧ doc !! "teacherId" = Some tid)
  ∧ ∀ k, k ∉ entry_fields → doc !! k = old !! k.
Proof.
  split.
  - repeat split; apply lookup_union_Some_l; reflexivity.
  - intros k Hk. apply lookup_union_r. by apply newEntry_lookup_other.
Qed.

Lemma written_insert (tl : gmap string Doc) (x k : string) (d doc : Doc) :
  <[x := d]> tl !! k = Some doc → tl !! k ≠ Some doc → doc = d.
Proof.
  destruct (decide (x = k)) as [->|Hne].
  - rewrite lookup_insert_eq. by intros [= <-].
  - rewrite lookup_insert_ne by done. done.
Qed.

Lemma onAddOrUpdate_add_stored (p : Panel)
    (title className section description url : string) (entryId : jsstr)
    (s : Sys) (tid : string) :
  as_truthy (teacherId s) = Some tid →
  as_truthy entryId = None →
  nth_fault 0 s = None →
  teachingLearning
    (store (onAddOrUpdate p title className section description url entryId s).2)
  = <[fresh (dom (teachingLearning (store s)))
      := newEntry (panel_category p) title className section description url tid]>
      (teachingLearning (store s)).
Proof.
  intros Ht He Hf. destruct s as [u st ck fl cl co uh en t].
  run. rewrite Ht, He. reduce.
  destruct fl as [|[e0|] [|[e1|] [|[e2|] fl]]]; observe; try done;
    repeat (first [progress reduce | rewrite Ht]); forEach_cases; done.
Qed.

(** C10: with the teacher identifier resolved to [tid], every document of
    the entry store that the [onAddOrUpdate] of panel [p] creates or
    changes carries [teacherId = tid] and the category of [p], whatever the
    other arguments are; an add that succeeds inserts exactly [newEntry]
    under an unused identifier; an update that succeeds replaces the stored
    document by one whose seven fields category, title, className, section,
    description, url and teacherId are the new values and whose other
    fields are those of the old document. *)
Theorem onAddOrUpdate_written_document (p : Panel)
    (title className section description url : string) (entryId : jsstr)
    (s : Sys) (tid : string) :
  as_truthy (teacherId s) = Some tid →
  let d := newEntry (panel_category p) title className section description url tid in
  let tl := teachingLearning (store s) in
  let tl' := teachingLearning
               (store (onAddOrUpdate p title className section description url entryId s).2) in
  (∀ k doc, tl' !! k = Some doc → tl !! k ≠ Some doc →
     doc !! "teacherId" = Some tid ∧ doc !! "category" = Some (panel_category p))
  ∧ (as_truthy entryId = None → nth_fault 0 s = None →
     tl !! fresh (dom tl) = None ∧ tl' = <[fresh (dom tl) := d]> tl)
  ∧ (∀ eid old, as_truthy entryId = Some eid → tl !! eid = Some old → nth_fault 0 s = None →
     ∃ doc, tl' = <[eid := doc]> tl
       ∧ doc !! "category" = Some (panel_category p) ∧ doc !! "title" = Some title
       ∧ doc !! "className" = Some className ∧ doc !! "section" = Some section
       ∧ doc !! "description" = Some description ∧ doc !! "url" = Some url
       ∧ doc !! "teacherId" = Some tid
       ∧ ∀ k, k ∉ entry_fields → doc !! k = old !! k).
Proof.
  intros Ht d tl tl'. subst tl tl'.
  destruct s as [u st ck fl cl co uh en t]. split; [|split].
  - intros k doc. run. rewrite Ht. reduce.
    destruct (as_truthy entryId) as [eid|] eqn:He; reduce.
    + destruct (teachingLearning st !! eid) as [old|] eqn:Hold;
        destruct fl as [|[e0|] [|[e1|] [|[e2|] fl]]];
        repeat (first [progress reduce | rewrite Hold | rewrite Ht]);
        forEach_cases; try done.
      all: intros H1 H2; rewrite (written_insert _ _ _ _ _ H1 H2).
      all: split; apply lookup_union_Some_l; reflexivity.
    + destruct fl as [|[e0|] [|[e1|] [|[e2|] fl]]];
        repeat (first [progress reduce | rewrite Ht]); forEach_cases; try done.
      all: intros H1 H2; rewrite (written_insert _ _ _ _ _ H1 H2).
      all: split; reflexivity.
  - intros He Hf. split.
    { apply not_elem_of_dom, is_fresh. }
    by apply onAddOrUpdate_add_stored.
  - intros eid old He Hold Hf. exists (d ∪ old).
    split;
      [|destruct (union_newEntry_lookup (panel_category p) title className section
                    description url tid old) as [(?&?&?&?&?&?&?) ?];
        repeat split; assumption].
    run. rewrite Ht, He. reduce. rewrite Hold.
    destruct fl as [|[e0|] [|[e1|] [|[e2|] fl]]]; observe; try done;
      repeat (first [progress reduce | rewrite Ht]); forEach_cases; done.
Qed.

Lemma onAddOrUpdate_written_document_witness :
  as_truthy (teacherId (sys_with [] empty_buckets (Some "t1"))) = Some "t1"
  ∧ teachingLearning
      (store (onAddOrUpdate PedagogicalInnovations "" "" "" "" "" None
                (sys_with [] empty_buckets (Some "t1"))).2)
    = <[fresh (dom (teachingLearning store_plain))
        := newEntry "Pedagogical Innovations" "" "" "" "" "" "t1"]>
        (teachingLearning store_plain)
  ∧ ∃ doc,
      teachingLearning
        (store (onAddOrUpdate StudentFeedback "Syllabus" "1st Year" "A" "Revised outline"
                  "https://example.com/a" (Some "e1")
                  (sys_with [] empty_buckets (Some "t1"))).2)
      = <["e1" := doc]> (teachingLearning store_plain)
      ∧ doc !! "category" = Some "Student Feedback"
      ∧ doc !! "description" = Some "Revised outline"
      ∧ doc !! "teacherId" = Some "t1".
Proof.
  split; [reflexivity|]. split.
  - apply (onAddOrUpdate_written_document PedagogicalInnovations "" "" "" "" "" None
             (sys_with [] empty_buckets (Some "t1")) "t1" eq_refl); reflexivity.
  - destruct (proj2 (proj2 (onAddOrUpdate_written_document StudentFeedback "Syllabus"
                              "1st Year" "A" "Revised outline" "https://example.com/a"
                              (Some "e1") (sys_with [] empty_buckets (Some "t1")) "t1"
                              eq_refl))
                "e1" doc_course_design eq_refl eq_refl eq_refl)
      as (doc & Htl & Hcat & _ & _ & _ & Hdesc & _ & Htid & _).
    exists doc. exact (conj Htl (conj Hcat (conj Hdesc Htid))).
Defined.

(** ** The save path *)

(** C2 as stated fails: with no teacher identifier resolved, saving a blank
    form issues no call and leaves the store as it is. *)
Lemma handleAddOrUpdate_unresolved_issues_nothing :
  validateForm (formData blank_card) = false
  ∧ calls (handleAddOrUpdate CourseDesign blank_card (sys_with [] empty_buckets None)).2 = []
  ∧ store (handleAddOrUpdate CourseDesign blank_card (sys_with [] empty_buckets None)).2
    = store_plain.
Proof. repeat split; vm_compute; reflexivity. Qed.


Lemma as_truthy_idemp (v : jsstr) : as_truthy (as_truthy v) = as_truthy v.
Proof.
  destruct v as [x|]; simpl; [|done].
  destruct (String.eqb x "") eqn:E; simpl; [done|]. by rewrite E.
Qed.

Lemma handleAddOrUpdate_run (p : Panel) (c : CardState) (s : Sys) :
  handleAddOrUpdate p c s
  = (Returned (mkCardState false empty_form (viewMore c)),
     (onAddOrUpdate p (form_title (formData c)) (form_className (formData c))
        (form_section (formData c)) (form_description (formData c))
        (form_url (formData c)) (as_truthy (Some (form_id (formData c)))) s).2).
Proof.
  unfold handleAddOrUpdate, onAddOrUpdate, detached, bind, ret.
  destruct (returns_addOrUpdateEntry (panel_category p) (form_title (formData c))
              (form_className (formData c)) (form_section (formData c))
              (form_description (formData c)) (form_url (formData c))
              (as_truthy (Some (form_id (formData c)))) s) as [[] H].
  destruct (addOrUpdateEntry _ _ _ _ _ _ _ s) as [o s']. simpl in H. subst o. done.
Qed.

Lemma onAddOrUpdate_first_call (p : Panel)
    (title className section description url : string) (entryId : jsstr)
    (s : Sys) (tid : string) :
  as_truthy (teacherId s) = Some tid →
  let d := newEntry (panel_category p) title className section description url tid in
  ∃ o rest,
    calls (onAddOrUpdate p title className section description url entryId s).2
    = calls s ++ (match as_truthy entryId with
                  | Some eid => UpdateEntry eid d
                  | None => AddEntry d
                  end, o) :: rest.
Proof.
  intros Ht d. destruct s as [u st ck fl cl co uh en t]. run. rewrite Ht. reduce. fold d.
  destruct (as_truthy entryId) as [eid|] eqn:He; reduce.
  - destruct (teachingLearning st !! eid) as [old|] eqn:Hold;
      destruct fl as [|[e0|] [|[e1|] [|[e2|] fl]]];
      repeat (first [progress reduce | rewrite Hold | rewrite Ht]);
      forEach_cases; rewrite <- ?app_assoc; simpl; eauto.
  - destruct fl as [|[e0|] [|[e1|] [|[e2|] fl]]];
      repeat (first [progress reduce | rewrite Ht]);
      forEach_cases; rewrite <- ?app_assoc; simpl; eauto.
Qed.

(** C2, amended: [validateForm] plays no part in saving.  Whenever the
    teacher identifier is resolved, the Save button issues, as its first
    remote call, the add (empty form id) or the update (non-empty form id)
    built from the form as it is, blank fields included, and an add that the
    store accepts persists that document; while no teacher identifier is
    resolved, it issues nothing and changes nothing. *)
Theorem handleAddOrUpdate_issues_mutation (p : Panel) (c : CardState) (s : Sys) :
  let f := formData c in
  let s' := (handleAddOrUpdate p c s).2 in
  (∀ tid, as_truthy (teacherId s) = Some tid →
     (∃ o rest, calls s' = calls s ++ (mutation_call p f tid, o) :: rest)
     ∧ (form_id f = "" → nth_fault 0 s = None →
        teachingLearning (store s')
        = <[fresh (dom (teachingLearning (store s)))
            := newEntry (panel_category p) (form_title f) (form_className f)
                 (form_section f) (form_description f) (form_url f) tid]>
            (teachingLearning (store s))))
  ∧ (as_truthy (teacherId s) = None → s' = s).
Proof.
  intros f s'. subst s'. rewrite handleAddOrUpdate_run. cbn [snd]. split.
  - intros tid Ht. split.
    + unfold mutation_call. rewrite <- (as_truthy_idemp (Some (form_id f))).
      apply onAddOrUpdate_first_call, Ht.
    + intros Hid Hf. apply onAddOrUpdate_add_stored; [done| |done].
      fold f. rewrite Hid. reflexivity.
  - intros Ht. unfold onAddOrUpdate. by rewrite addOrUpdateEntry_unresolved.
Qed.

Lemma handleAddOrUpdate_issues_mutation_witness :
  as_truthy (teacherId (sys_with [] empty_buckets (Some "t1"))) = Some "t1"
  ∧ validateForm (formData blank_card) = false
  ∧ form_id (formData blank_card) = ""
  ∧ nth_fault 0 (sys_with [] empty_buckets (Some "t1")) = None
  ∧ teachingLearning
      (store (handleAddOrUpdate StudentFeedback blank_card
                (sys_with [] empty_buckets (Some "t1"))).2)
    = <[fresh (dom (teachingLearning store_plain))
        := newEntry "Student Feedback" "" "" "" "" "" "t1"]>
        (teachingLearning store_plain).
Proof.
  repeat (split; [reflexivity|]).
  apply (proj1 (handleAddOrUpdate_issues_mutation StudentFeedback blank_card
                  (sys_with [] empty_buckets (Some "t1"))) "t1" eq_refl); reflexivity.
Defined.

(** ** Saving and cancelling *)

(** C7 as stated fails for Cancel: it closes the form but the typed title
    stays, and is shown again when the form is reopened. *)
Lemma handleCancel_keeps_form_data :
  showForm (handleCancel draft_card) = false
  ∧ form_title (formData (handleCancel draft_card)) = "Draft"
  ∧ formData (handleCancel draft_card) ≠ empty_form
  ∧ formData (toggleForm (handleCancel draft_card)) = formData draft_card.
Proof. repeat split. discriminate. Qed.

(** C7, amended: saving returns normally with every form field reset to
    the empty string and the form closed; cancelling closes the form and
    leaves the form data as it is. *)
Theorem save_clears_and_closes_cancel_closes (p : Panel) (c : CardState) (s : Sys) :
  (∃ c', (handleAddOrUpdate p c s).1 = Returned c'
         ∧ formData c' = empty_form ∧ showForm c' = false)
  ∧ showForm (handleCancel c) = false
  ∧ formData (handleCancel c) = formData c.
Proof.
  split; [|done]. rewrite handleAddOrUpdate_run. eauto.
Qed.

(** ** Audit records *)

(** C3, amended: when the store write of an add, an update or a delete
    succeeds, the handler next writes one audit record (action "Add" without
    an identifier, "Edit" with one, "Delete" for a delete; entity
    "TeachingLearning"; the session user's id, or null) and only then issues
    the query of the re-fetch; the record is in the activity log, once, when
    that write succeeds, and is missing when it fails. *)
Theorem mutation_audit_record (s : Sys)
    (category title className section description url : string) (entryId : jsstr) :
  nth_fault 0 s = None →
  (∀ tid, as_truthy (teacherId s) = Some tid → as_truthy entryId = None →
     audited s
       (addOrUpdateEntry category title className section description url entryId s).2
       (AddEntry (newEntry category title className section description url tid))
       (audit "Add" (describe "Added a new entry" title category) s)
       (refetch_query s))
  ∧ (∀ tid eid, as_truthy (teacherId s) = Some tid → as_truthy entryId = Some eid →
       is_Some (teachingLearning (store s) !! eid) →
       audited s
         (addOrUpdateEntry category title className section description url entryId s).2
         (UpdateEntry eid (newEntry category title className section description url tid))
         (audit "Edit" (describe "Edited an entry" title category) s)
         (refetch_query s))
  ∧ (∀ eid,
       audited s (handleDelete eid title category s).2
         (DeleteEntry eid)
         (audit "Delete" (describe "Deleted an entry" title category) s)
         (refetch_query s)).
Proof.
  intros Hf. destruct s as [u st ck fl cl co uh en t].
  unfold audited, refetch_query, audit. split; [|split].
  - intros tid Ht He. run. rewrite Ht, He. reduce.
    destruct fl as [|[e0|] [|[e1|] [|[e2|] fl]]]; observe; try done;
      repeat (first [progress reduce | rewrite Ht]); forEach_cases;
      rewrite <- ?app_assoc, ?app_nil_r; done.
  - intros tid eid Ht He [old Hold]. run. rewrite Ht, He. reduce. rewrite Hold.
    destruct fl as [|[e0|] [|[e1|] [|[e2|] fl]]]; observe; try done;
      repeat (first [progress reduce | rewrite Ht]); forEach_cases;
      rewrite <- ?app_assoc, ?app_nil_r; done.
  - intros eid. run.
    destruct (as_truthy t) as [tid|] eqn:Ht;
      destruct fl as [|[e0|] [|[e1|] [|[e2|] fl]]]; observe; try done;
      repeat (first [progress reduce | rewrite Ht]); forEach_cases;
      rewrite <- ?app_assoc, ?app_nil_r; done.
Qed.

(** C3 as stated fails when the write to the activity log is the one that
    fails: the entry is stored, the re-fetch runs, and no audit record
    exists. *)
Lemma add_without_audit_record :
  calls (handleAddOrUpdate PedagogicalInnovations typed_card sys_log_fails).2
  = [(AddEntry (newEntry "Pedagogical Innovations" "Flipped Classroom" "2nd Year" "B"
                  "Group work" "https://example.com/doc" "t1"), None);
     (AddActivityLog
        (audit "Add"
           (describe "Added a new entry" "Flipped Classroom" "Pedagogical Innovations")
           sys_log_fails), Some unavailable);
     (QueryEntries "t1", None)]
  ∧ size (teachingLearning
            (store (handleAddOrUpdate PedagogicalInnovations typed_card sys_log_fails).2)) = 2
  ∧ activityLogs (store (handleAddOrUpdate PedagogicalInnovations typed_card sys_log_fails).2)
    = [].
Proof. repeat split; vm_compute; reflexivity. Qed.

Lemma mutation_audit_record_witness :
  nth_fault 0 (sys_with [] empty_buckets (Some "t1")) = None
  ∧ audited (sys_with [] empty_buckets (Some "t1"))
      (addOrUpdateEntry "Pedagogical Innovations" "Flipped Classroom" "2nd Year" "B"
         "Group work" "https://example.com/doc" None
         (sys_with [] empty_buckets (Some "t1"))).2
      (AddEntry (newEntry "Pedagogical Innovations" "Flipped Classroom" "2nd Year" "B"
                   "Group work" "https://example.com/doc" "t1"))
      (audit "Add" (describe "Added a new entry" "Flipped Classroom" "Pedagogical Innovations")
         (sys_with [] empty_buckets (Some "t1")))
      [(QueryEntries "t1", None)]
  ∧ activityLogs (store (handleDelete "e1" "Flipped Classroom" "Pedagogical Innovations"
                           (sys_with [] empty_buckets (Some "t1"))).2)
    = [audit "Delete" (describe "Deleted an entry" "Flipped Classroom" "Pedagogical Innovations")
         (sys_with [] empty_buckets (Some "t1"))].
Proof.
  split; [reflexivity|].
  pose proof (mutation_audit_record (sys_with [] empty_buckets (Some "t1"))
                "Pedagogical Innovations" "Flipped Classroom" "2nd Year" "B" "Group work"
                "https://example.com/doc" None eq_refl) as (Hadd & _ & Hdel).
  split.
  - exact (Hadd "t1" eq_refl eq_refl).
  - destruct (Hdel "e1") as [Hlog _]. exact Hlog.
Defined.

(** ** No teacher identifier, no query *)

Lemma quiet_step_refl (s : Sys) : teacherId s = None → quiet_step s s.
Proof. by intros H. Qed.

Lemma quiet_step_trans (s1 s2 s3 : Sys) :
  quiet_step s1 s2 → quiet_step s2 s3 → quiet_step s1 s3.
Proof. unfold quiet_step. intros (?&?&?&?) (?&?&?&?). repeat split; congruence. Qed.

Lemma handleDelete_unresolved (eid title category : string) (s : Sys) :
  teacherId s = None →
  (handleDelete eid title category s).1 = Returned ()
  ∧ quiet_step s (handleDelete eid title category s).2.
Proof.
  intros Ht. destruct s as [u st ck fl cl co uh en t]. reduce. subst t.
  unfold quiet_step. run.
  destruct fl as [|[e0|] [|[e1|] fl]]; repeat (progress (cbn [as_truthy]; reduce));
    rewrite ?List.filter_app, ?app_nil_r; done.
Qed.

Lemma perform_unresolved (a : Action) (s : Sys) :
  teacherId s = None →
  (perform a s).1 = Returned () ∧ quiet_step s (perform a s).2.
Proof.
  intros Ht. destruct a as [p c|eid title category].
  - unfold perform, bind, ret. rewrite handleAddOrUpdate_run.
    unfold onAddOrUpdate. rewrite addOrUpdateEntry_unresolved by (by rewrite Ht).
    split; [done|]. by apply quiet_step_refl.
  - destruct (handleDelete_unresolved eid title category s Ht) as [Hr Hq].
    unfold perform, detached.
    destruct (handleDelete eid title category s) as [o s']. simpl in *. by subst o.
Qed.

Lemma perform_all_unresolved (acts : list Action) (s : Sys) :
  teacherId s = None →
  (perform_all acts s).1 = Returned () ∧ quiet_step s (perform_all acts s).2.
Proof.
  revert s. induction acts as [|a acts IH]; intros s Ht; simpl.
  - split; [done|]. by apply quiet_step_refl.
  - destruct (perform_unresolved a s Ht) as [Hr Hq]. unfold bind.
    destruct (perform a s) as [o s1]. simpl in *. subst o.
    destruct (IH s1) as [Hr' Hq']; [apply Hq|].
    split; [done|]. by apply quiet_step_trans with s1.
Qed.

Lemma mount_no_user (s : Sys) :
  truthy (user s) = false →
  mount s = (Returned (), set_teacherId None (set_entries empty_buckets s)).
Proof. intros Hu. destruct s as [u st ck fl cl co uh en t]. run. by rewrite Hu. Qed.

Lemma mount_no_teacher (s : Sys) (uid : string) :
  as_truthy (user s) = Some uid →
  uid ∉ teachers (store s) →
  teacherId (mount s).2 = None
  ∧ entries (mount s).2 = empty_buckets
  ∧ List.filter is_query (calls (mount s).2) = List.filter is_query (calls s).
Proof.
  intros Hu Hdoc. destruct s as [u st ck fl cl co uh en t]. run.
  rewrite (as_truthy_truthy _ _ Hu). reduce. rewrite Hu. reduce.
  rewrite (bool_decide_eq_false_2 _ Hdoc).
  destruct fl as [|[e0|] fl]; repeat (progress (cbn [truthy]; reduce));
    rewrite ?List.filter_app, ?app_nil_r; done.
Qed.

(** C6: mount the page and let the user save and delete as often as they
    like.  Without a session user (no truthy [user?.id]) mounting issues no
    call and writes nothing to the console, as [fetchTeacherId] is not
    called, and no lookup in the teachers collection is ever issued.  With a session user whose teacher
    document does not exist, the teacher identifier stays [null], the
    entries state stays at its four empty buckets, and no query of the
    entry store is ever issued. *)
Theorem unresolved_identity_never_queries (s : Sys) (acts : list Action) :
  (truthy (user s) = false →
   calls (mount s).2 = calls s
   ∧ console (mount s).2 = console s
   ∧ List.filter is_lookup (calls (perform_all acts (mount s).2).2)
     = List.filter is_lookup (calls s))
  ∧ (∀ uid, as_truthy (user s) = Some uid → uid ∉ teachers (store s) →
     teacherId (perform_all acts (mount s).2).2 = None
     ∧ entries (perform_all acts (mount s).2).2 = empty_buckets
     ∧ List.filter is_query (calls (perform_all acts (mount s).2).2)
       = List.filter is_query (calls s)).
Proof.
  split.
  - intros Hu. rewrite (mount_no_user s Hu). cbn [snd].
    destruct (perform_all_unresolved acts (set_teacherId None (set_entries empty_buckets s)))
      as (_ & _ & _ & _ & Hl); [by destruct s|].
    rewrite Hl. by destruct s.
  - intros uid Hu Hdoc.
    destruct (mount_no_teacher s uid Hu Hdoc) as (Ht & He & Hq).
    destruct (perform_all_unresolved acts (mount s).2 Ht) as (_ & Ht' & He' & Hq' & _).
    repeat split; congruence.
Qed.

Lemma unresolved_identity_never_queries_witness :
  (truthy (user sys_no_user) = false
   ∧ calls (mount sys_no_user).2 = []
   ∧ console (mount sys_no_user).2 = [])
  ∧ as_truthy (user sys_no_teacher) = Some "u9"
  ∧ ("u9" ∉ teachers (store sys_no_teacher))
  ∧ teacherId (perform_all example_actions (mount sys_no_teacher).2).2 = None
  ∧ entries (perform_all example_actions (mount sys_no_teacher).2).2 = empty_buckets
  ∧ List.filter is_query (calls (perform_all example_actions (mount sys_no_teacher).2).2)
    = [].
Proof.
  assert ("u9" ∉ teachers (store sys_no_teacher)) as Hdoc by (vm_compute; set_solver).
  split.
  - split; [reflexivity|].
    destruct (proj1 (unresolved_identity_never_queries sys_no_user example_actions) eq_refl)
      as (Hcalls & Hconsole & _).
    exact (conj Hcalls Hconsole).
  - split; [reflexivity|]. split; [exact Hdoc|].
    exact (proj2 (unresolved_identity_never_queries sys_no_teacher example_actions)
             "u9" eq_refl Hdoc).
Defined.

(** * Further properties *)

(** A closed decidable statement, by evaluation. *)
Ltac by_computation := apply (bool_decide_unpack _); vm_compute; exact I.

(** ** What fetchEntries displays *)

Lemma query_teacherId_elem (tid : string) (tl : gmap string Doc) (i : string) (doc : Doc) :
  (i, doc) ∈ query_teacherId tid tl ↔ tl !! i = Some doc ∧ doc !! "teacherId" = Some tid.
Proof.
  unfold query_teacherId. rewrite elem_of_map_to_list, map_lookup_filter_Some. done.
Qed.

Lemma bucket_of_query_elem (tid k : string) (tl : gmap string Doc) (e : Entry) :
  e ∈ bucket_of k (query_teacherId tid tl) ↔ stored_entry tid k tl e.
Proof.
  unfold bucket_of, stored_entry. rewrite list_elem_of_fmap. split.
  - intros ([i doc] & -> & Hin). apply list_elem_of_filter in Hin as [Hk Hin].
    apply query_teacherId_elem in Hin as [Hdoc Htid]. by exists i, doc.
  - intros (i & doc & Hdoc & Htid & Hk & ->). exists (i, doc). split; [done|].
    apply list_elem_of_filter. split; [done|]. by apply query_teacherId_elem.
Qed.

Lemma bucket_of_query_NoDup (tid k : string) (tl : gmap string Doc) :
  NoDup (id <$> bucket_of k (query_teacherId tid tl)).
Proof.
  unfold bucket_of, query_teacherId. rewrite <- list_fmap_compose.
  apply (sublist_NoDup _
           ((map_to_list (filter (λ kd, kd.2 !! "teacherId" = Some tid) tl)).*1));
    [apply NoDup_fst_map_to_list|].
  replace (id ∘ entry_of) with (@fst string Doc) by done.
  apply fmap_sublist, sublist_filter.
Qed.

(** X1: after a fetch whose query succeeds, and with no category among the
    teacher's documents that names a property of [Object.prototype], the
    list a panel receives holds exactly the entries of the stored documents
    whose [teacherId] is the resolved identifier and whose category is the
    panel's, and no identifier twice. *)
Theorem fetchEntries_shows_teacher_documents (s : Sys) (tid : string) (p : Panel) :
  as_truthy (teacherId s) = Some tid →
  nth_fault 0 s = None →
  displayable tid (teachingLearning (store s)) →
  ∃ l, panel_entries p (fetchEntries s).2 = Some l
       ∧ NoDup (id <$> l)
       ∧ ∀ e, e ∈ l ↔ stored_entry tid (panel_category p) (teachingLearning (store s)) e.
Proof.
  intros Ht Hf Hd.
  destruct (fetchEntries_partition s tid Ht Hf Hd) as (_ & Hp & _).
  exists (bucket_of (panel_category p) (query_teacherId tid (teachingLearning (store s)))).
  split; [apply Hp|]. split; [apply bucket_of_query_NoDup|].
  intros e. apply bucket_of_query_elem.
Qed.

Lemma fetchEntries_shows_teacher_documents_witness :
  as_truthy (teacherId sys_ok) = Some "t1"
  ∧ nth_fault 0 sys_ok = None
  ∧ displayable "t1" (teachingLearning (store sys_ok))
  ∧ ∃ l, panel_entries CourseDesign (fetchEntries sys_ok).2 = Some l
         ∧ NoDup (id <$> l)
         ∧ ∀ e, e ∈ l ↔ stored_entry "t1" "Course Design" (teachingLearning (store sys_ok)) e.
Proof.
  assert (displayable "t1" (teachingLearning (store sys_ok))) as Hd
    by (unfold displayable; by_computation).
  exact (conj eq_refl (conj eq_refl (conj Hd
           (fetchEntries_shows_teacher_documents sys_ok "t1" CourseDesign eq_refl eq_refl Hd)))).
Defined.

(** X2: one stored document of the teacher whose category names a property
    of [Object.prototype] is enough for a fetch whose query succeeds to end
    in the catch: the [TypeError] is on the console and the previous
    buckets stay, whatever else the snapshot holds. *)
Theorem fetchEntries_inherited_category_keeps_state
    (s : Sys) (tid i : string) (doc : Doc) :
  as_truthy (teacherId s) = Some tid →
  nth_fault 0 s = None →
  teachingLearning (store s) !! i = Some doc →
  doc !! "teacherId" = Some tid →
  property_key (doc !! "category") ∈ object_prototype_keys →
  (fetchEntries s).1 = Returned ()
  ∧ entries (fetchEntries s).2 = entries s
  ∧ console (fetchEntries s).2
    = console s ++ [ConsoleError "Error fetching entries:"
        (Some (TypeError "updatedEntries[data.category].push is not a function"))].
Proof.
  intros Ht Hf Hdoc Htid Hk.
  apply (fetchEntries_inherited_category s tid (i, doc) Ht Hf); [|done].
  by apply query_teacherId_elem.
Qed.

Lemma fetchEntries_inherited_category_keeps_state_witness :
  as_truthy (teacherId sys_inherited) = Some "t1"
  ∧ nth_fault 0 sys_inherited = None
  ∧ teachingLearning (store sys_inherited) !! "e2" = Some doc_constructor
  ∧ doc_constructor !! "teacherId" = Some "t1"
  ∧ property_key (doc_constructor !! "category") ∈ object_prototype_keys
  ∧ entries (fetchEntries sys_inherited).2 = stale_buckets.
Proof.
  assert (property_key (doc_constructor !! "category") ∈ object_prototype_keys) as Hk
    by by_computation.
  repeat (split; [first [reflexivity | exact Hk]|]).
  exact (proj1 (proj2 (fetchEntries_inherited_category_keeps_state sys_inherited "t1" "e2"
                         doc_constructor eq_refl eq_refl eq_refl eq_refl Hk))).
Defined.

(** X3: [fetchEntries] always returns normally and never changes the store,
    the teacher identifier or the session user; while the identifier is
    not resolved it changes nothing at all and issues no call. *)
Theorem fetchEntries_reads_only (s : Sys) :
  (fetchEntries s).1 = Returned ()
  ∧ store (fetchEntries s).2 = store s
  ∧ teacherId (fetchEntries s).2 = teacherId s
  ∧ user (fetchEntries s).2 = user s
  ∧ unhandled (fetchEntries s).2 = unhandled s
  ∧ (as_truthy (teacherId s) = None → (fetchEntries s).2 = s).
Proof.
  destruct s as [u st ck fl cl co uh en t]. run.
  destruct (as_truthy t) as [tid|] eqn:Ht; reduce; [|done].
  destruct fl as [|[e0|] fl]; reduce; forEach_cases; done.
Qed.

Lemma fetchEntries_reads_only_witness :
  as_truthy (teacherId sys_mounting) = None
  ∧ (fetchEntries sys_mounting).2 = sys_mounting.
Proof.
  split; [reflexivity|].
  exact (proj2 (proj2 (proj2 (proj2 (proj2 (fetchEntries_reads_only sys_mounting))))) eq_refl).
Defined.

(** ** Writes that fail *)

(** X4: when the store write of an add, an update or a delete is rejected,
    the handler stops there: the only call issued is the rejected write, no
    audit record is written, no re-fetch is issued, store and buckets are
    as before, and the console receives "Error updating entry:" (identifier
    given), "Error adding entry:" (none given) or "Error deleting entry:"
    with the error. *)
Theorem rejected_write_stops_handler (s : Sys) (e : Error)
    (category title className section description url : string) (entryId : jsstr) :
  nth_fault 0 s = Some e →
  (∀ tid, as_truthy (teacherId s) = Some tid →
     addOrUpdateEntry category title className section description url entryId s
     = (Returned (),
        set_console
          (console s ++ [ConsoleError (if truthy entryId then "Error updating entry:"
                                       else "Error adding entry:") (Some e)])
          (record_call
             (match as_truthy entryId with
              | Some eid =>
                  UpdateEntry eid (newEntry category title className section description url tid)
              | None => AddEntry (newEntry category title className section description url tid)
              end) (Some e)
             (set_faults (tail (faults s)) s))))
  ∧ (∀ eid,
       handleDelete eid title category s
       = (Returned (),
          set_console (console s ++ [ConsoleError "Error deleting entry:" (Some e)])
            (record_call (DeleteEntry eid) (Some e) (set_faults (tail (faults s)) s)))).
Proof.
  intros Hf. destruct s as [u st ck fl cl co uh en t].
  destruct fl as [|[e0|] fl]; observe; simplify_eq. split.
  - intros tid Ht. run. rewrite Ht. reduce.
    destruct (as_truthy entryId) as [eid|] eqn:He; reduce; done.
  - intros eid. run. done.
Qed.

Lemma rejected_write_stops_handler_witness :
  nth_fault 0 sys_write_fails = Some unavailable
  ∧ as_truthy (teacherId sys_write_fails) = Some "t1"
  ∧ store (addOrUpdateEntry "Course Design" "Syllabus" "1st Year" "A" "Outline"
             "https://example.com/a" None sys_write_fails).2 = store_plain
  ∧ calls (handleDelete "e1" "Syllabus" "Course Design" sys_write_fails).2
    = [(DeleteEntry "e1", Some unavailable)].
Proof.
  split; [reflexivity|]. split; [reflexivity|].
  destruct (rejected_write_stops_handler sys_write_fails unavailable "Course Design"
              "Syllabus" "1st Year" "A" "Outline" "https://example.com/a" None eq_refl)
    as [Hadd Hdel].
  split.
  - rewrite (Hadd "t1" eq_refl). reflexivity.
  - rewrite (Hdel "e1"). reflexivity.
Defined.

(** X5: an update for an identifier that has no document is rejected by
    [updateDoc] with not-found; it creates nothing, and the handler logs
    "Error updating entry:" and writes neither an audit record nor issues a
    re-fetch. *)
Theorem update_of_missing_document_is_rejected (s : Sys) (tid eid : string)
    (category title className section description url : string) (entryId : jsstr) :
  as_truthy (teacherId s) = Some tid →
  as_truthy entryId = Some eid →
  teachingLearning (store s) !! eid = None →
  nth_fault 0 s = None →
  addOrUpdateEntry category title className section description url entryId s
  = (Returned (),
     set_console
       (console s ++ [ConsoleError "Error updating entry:" (Some (FirebaseError "not-found"))])
       (record_call
          (UpdateEntry eid (newEntry category title className section description url tid))
          (Some (FirebaseError "not-found"))
          (set_faults (tail (faults s)) s))).
Proof.
  intros Ht He Hdoc Hf. destruct s as [u st ck fl cl co uh en t].
  run. rewrite Ht, He. reduce. rewrite Hdoc, (as_truthy_truthy _ _ He).
  destruct fl as [|[e0|] fl]; observe; simplify_eq; reduce; done.
Qed.

Lemma update_of_missing_document_is_rejected_witness :
  as_truthy (teacherId sys_ok) = Some "t1"
  ∧ as_truthy (Some "zz") = Some "zz"
  ∧ teachingLearning (store sys_ok) !! "zz" = None
  ∧ nth_fault 0 sys_ok = None
  ∧ calls (addOrUpdateEntry "Course Design" "Syllabus" "1st Year" "A" "Outline"
             "https://example.com/a" (Some "zz") sys_ok).2
    = [(UpdateEntry "zz" (newEntry "Course Design" "Syllabus" "1st Year" "A" "Outline"
                            "https://example.com/a" "t1"),
        Some (FirebaseError "not-found"))].
Proof.
  repeat (split; [reflexivity|]).
  rewrite (update_of_missing_document_is_rejected sys_ok "t1" "zz" "Course Design"
             "Syllabus" "1st Year" "A" "Outline" "https://example.com/a" (Some "zz")
             eq_refl eq_refl eq_refl eq_refl).
  reflexivity.
Defined.

(** X6: [handleDelete] has no guard: for an identifier that has no document
    the delete succeeds and leaves the entry store as it is, and the handler
    still writes the "Delete" audit record and re-fetches, also while no
    teacher identifier is resolved (then without the query). *)
Theorem delete_of_missing_document_is_audited (s : Sys) (eid title category : string) :
  teachingLearning (store s) !! eid = None →
  nth_fault 0 s = None →
  teachingLearning (store (handleDelete eid title category s).2) = teachingLearning (store s)
  ∧ audited s (handleDelete eid title category s).2 (DeleteEntry eid)
      (audit "Delete" (describe "Deleted an entry" title category) s)
      (refetch_query s).
Proof.
  intros Hdoc Hf. destruct s as [u st ck fl cl co uh en t].
  unfold audited, refetch_query, audit. run. rewrite (delete_id _ _ Hdoc).
  destruct (as_truthy t) as [tid|] eqn:Ht;
    destruct fl as [|[e0|] [|[e1|] [|[e2|] fl]]]; observe; try done;
    repeat (first [progress reduce | rewrite Ht]); forEach_cases;
    rewrite <- ?app_assoc, ?app_nil_r; by destruct st.
Qed.

Lemma delete_of_missing_document_is_audited_witness :
  teachingLearning (store sys_ok) !! "zz" = None
  ∧ nth_fault 0 sys_ok = None
  ∧ teachingLearning (store (handleDelete "zz" "Gone" "Course Design" sys_ok).2)
    = teachingLearning store_plain
  ∧ activityLogs (store (handleDelete "zz" "Gone" "Course Design" sys_ok).2)
    = [audit "Delete" (describe "Deleted an entry" "Gone" "Course Design") sys_ok].
Proof.
  split; [reflexivity|]. split; [reflexivity|].
  destruct (delete_of_missing_document_is_audited sys_ok "zz" "Gone" "Course Design"
              eq_refl eq_refl) as (Htl & Hlog & _).
  exact (conj Htl Hlog).
Defined.

(** ** A mutation touches one document *)

Lemma insert_fresh_keeps (tl : gmap string Doc) (d doc : Doc) (k : string) :
  tl !! k = Some doc → <[fresh (dom tl) := d]> tl !! k = Some doc.
Proof.
  intros Hk. rewrite lookup_insert_ne; [done|].
  intros Heq. pose proof (is_fresh (dom tl)) as Hfresh.
  rewrite Heq in Hfresh. apply Hfresh, elem_of_dom. eauto.
Qed.

(** X7: whatever the remote calls answer, an add changes no existing
    document, and an update or a delete changes no document other than the
    one whose identifier it was given. *)
Theorem mutation_touches_one_document (s : Sys) (k : string) :
  (∀ category title className section description url entryId doc,
     as_truthy entryId ≠ Some k →
     teachingLearning (store s) !! k = Some doc →
     teachingLearning
       (store (addOrUpdateEntry category title className section description url
                 entryId s).2) !! k = Some doc)
  ∧ (∀ eid title category,
       eid ≠ k →
       teachingLearning (store (handleDelete eid title category s).2) !! k
       = teachingLearning (store s) !! k).
Proof.
  destruct s as [u st ck fl cl co uh en t]. split.
  - intros category title className section description url entryId doc Hne Hk. run.
    destruct (as_truthy t) as [tid|] eqn:Ht; reduce; [|done].
    destruct (as_truthy entryId) as [eid|] eqn:He; reduce.
    + assert (eid ≠ k) by congruence.
      destruct (teachingLearning st !! eid) as [old|] eqn:Hold;
        destruct fl as [|[e0|] [|[e1|] [|[e2|] fl]]];
        repeat (first [progress reduce | rewrite Hold | rewrite Ht]);
        forEach_cases; rewrite ?lookup_insert_ne by done; done.
    + destruct fl as [|[e0|] [|[e1|] [|[e2|] fl]]];
        repeat (first [progress reduce | rewrite Ht]);
        forEach_cases; first [done | by apply insert_fresh_keeps].
  - intros eid title category Hne. run.
    destruct (as_truthy t) as [tid|] eqn:Ht;
      destruct fl as [|[e0|] [|[e1|] [|[e2|] fl]]];
      repeat (first [progress reduce | rewrite Ht]);
      forEach_cases; rewrite ?lookup_delete_ne by done; done.
Qed.

Lemma mutation_touches_one_document_witness :
  as_truthy (Some "zz") ≠ Some "e1"
  ∧ teachingLearning (store sys_ok) !! "e1" = Some doc_course_design
  ∧ teachingLearning
      (store (addOrUpdateEntry "Course Design" "Syllabus" "1st Year" "A" "Outline"
                "https://example.com/a" None sys_ok).2) !! "e1" = Some doc_course_design
  ∧ teachingLearning (store (handleDelete "zz" "Gone" "Course Design" sys_ok).2) !! "e1"
    = Some doc_course_design.
Proof.
  assert (as_truthy (Some "zz") ≠ Some "e1") as Hne by discriminate.
  assert ("zz" ≠ "e1") as Hne' by discriminate.
  assert (as_truthy None ≠ Some "e1") as Hnone by discriminate.
  split; [exact Hne|]. split; [reflexivity|].
  destruct (mutation_touches_one_document sys_ok "e1") as [Hadd Hdel].
  split.
  - exact (Hadd "Course Design" "Syllabus" "1st Year" "A" "Outline"
             "https://example.com/a" None doc_course_design Hnone eq_refl).
  - rewrite (Hdel "zz" "Gone" "Course Design" Hne'). reflexivity.
Defined.

(** ** Mutation, then re-fetch *)















(** ** Mounting the page *)




(** X12: when the lookup of the teacher document is rejected, whether or
    not the document exists, mounting logs "Error fetching teacher ID:",
    leaves the identifier [null] and the four buckets empty, and nothing is
    retried: no later Save or Delete issues a query. *)
Theorem mount_lookup_failure_leaves_page_empty (s : Sys) (uid : string) (e : Error)
    (acts : list Action) :
  as_truthy (user s) = Some uid →
  nth_fault 0 s = Some e →
  teacherId (mount s).2 = None
  ∧ entries (mount s).2 = empty_buckets
  ∧ calls (mount s).2 = calls s ++ [(GetTeacher uid, Some e)]
  ∧ console (mount s).2
    = console s ++ [ConsoleError "Error fetching teacher ID:" (Some e)]
  ∧ List.filter is_query (calls (perform_all acts (mount s).2).2)
    = List.filter is_query (calls s).
Proof.
  intros Hu Hf.
  assert (teacherId (mount s).2 = None
          ∧ entries (mount s).2 = empty_buckets
          ∧ calls (mount s).2 = calls s ++ [(GetTeacher uid, Some e)]
          ∧ console (mount s).2
            = console s ++ [ConsoleError "Error fetching teacher ID:" (Some e)])
    as (Ht & He & Hc & Hco).
  { destruct s as [u st ck fl cl co uh en t]. run.
    rewrite (as_truthy_truthy _ _ Hu). reduce. rewrite Hu. reduce.
    destruct fl as [|[e0|] fl]; observe; simplify_eq;
      repeat (progress (cbn [truthy]; reduce)); done. }
  repeat (split; [done|]).
  destruct (perform_all_unresolved acts (mount s).2 Ht) as (_ & _ & _ & Hq & _).
  rewrite Hq, Hc, List.filter_app. simpl. by rewrite app_nil_r.
Qed.

Lemma mount_lookup_failure_leaves_page_empty_witness :
  as_truthy (user sys_lookup_fails) = Some "t1"
  ∧ nth_fault 0 sys_lookup_fails = Some unavailable
  ∧ teacherId (mount sys_lookup_fails).2 = None
  ∧ entries (mount sys_lookup_fails).2 = empty_buckets
  ∧ List.filter is_query (calls (perform_all example_actions (mount sys_lookup_fails).2).2)
    = [].
Proof.
  split; [reflexivity|]. split; [reflexivity|].
  destruct (mount_lookup_failure_leaves_page_empty sys_lookup_fails "t1" unavailable
              example_actions eq_refl eq_refl) as (Ht & He & _ & _ & Hq).
  exact (conj Ht (conj He Hq)).
Defined.

(** ** Invariants of the page *)

Lemma forEach_push_entry_dom (docs : list (string * Doc)) (b : Buckets) :
  forEach push_entry docs empty_buckets = inr b → dom b = dom empty_buckets.
Proof.
  intros Hb. apply set_eq. intros k.
  rewrite !elem_of_dom, (forEach_push_entry_lookup _ _ _ k Hb). apply fmap_is_Some.
Qed.

Ltac buckets_cases :=
  forEach_cases;
  first [ assumption | reflexivity | eapply forEach_push_entry_dom; eassumption ].

Lemma fetchEntries_buckets (s : Sys) :
  dom (entries s) = dom empty_buckets →
  dom (entries (fetchEntries s).2) = dom empty_buckets.
Proof.
  intros H. destruct s as [u st ck fl cl co uh en t]. run.
  destruct (as_truthy t) as [tid|] eqn:Ht; reduce; [|done].
  destruct fl as [|[e0|] fl]; reduce; buckets_cases.
Qed.

Lemma addOrUpdateEntry_buckets
    (category title className section description url : string) (entryId : jsstr) (s : Sys) :
  dom (entries s) = dom empty_buckets →
  dom (entries (addOrUpdateEntry category title className section description url
                  entryId s).2) = dom empty_buckets.
Proof.
  intros H. destruct s as [u st ck fl cl co uh en t]. run.
  destruct (as_truthy t) as [tid|] eqn:Ht; reduce; [|done].
  destruct (as_truthy entryId) as [eid|] eqn:He; reduce.
  - destruct (teachingLearning st !! eid) as [old|] eqn:Hold;
      destruct fl as [|[e0|] [|[e1|] [|[e2|] fl]]];
      repeat (first [progress reduce | rewrite Hold | rewrite Ht]); buckets_cases.
  - destruct fl as [|[e0|] [|[e1|] [|[e2|] fl]]];
      repeat (first [progress reduce | rewrite Ht]); buckets_cases.
Qed.

Lemma handleDelete_buckets (eid title category : string) (s : Sys) :
  dom (entries s) = dom empty_buckets →
  dom (entries (handleDelete eid title category s).2) = dom empty_buckets.
Proof.
  intros H. destruct s as [u st ck fl cl co uh en t]. run.
  destruct (as_truthy t) as [tid|] eqn:Ht;
    destruct fl as [|[e0|] [|[e1|] [|[e2|] fl]]];
    repeat (first [progress reduce | rewrite Ht]); buckets_cases.
Qed.

Lemma mount_buckets (s : Sys) : dom (entries (mount s).2) = dom empty_buckets.
Proof.
  destruct s as [u st ck fl cl co uh en t]. run.
  destruct (truthy u) eqn:Hu; reduce; [|done].
  destruct (as_truthy u) as [uid|] eqn:Hu'; reduce; [|done].
  destruct (bool_decide (uid ∈ teachers st));
    destruct fl as [|[e0|] [|[e1|] fl]]; reduce; try done.
  all: destruct (truthy (Some uid)); reduce; try done.
  all: destruct (as_truthy (Some uid)); reduce; try done.
  all: buckets_cases.
Qed.

Lemma perform_buckets (a : Action) (s : Sys) :
  dom (entries s) = dom empty_buckets →
  dom (entries (perform a s).2) = dom empty_buckets.
Proof.
  intros H. destruct a as [p c|eid title category].
  - unfold perform, bind, ret. rewrite handleAddOrUpdate_run. cbn [snd].
    by apply addOrUpdateEntry_buckets.
  - pose proof (handleDelete_buckets eid title category s H) as H'.
    destruct (returns_handleDelete eid title category s) as [[] Hr].
    unfold perform, detached.
    destruct (handleDelete eid title category s) as [o s']. simpl in *. by subst o.
Qed.

Lemma perform_all_buckets (acts : list Action) (s : Sys) :
  dom (entries s) = dom empty_buckets →
  dom (entries (perform_all acts s).2) = dom empty_buckets.
Proof.
  revert s. induction acts as [|a acts IH]; intros s H; simpl; [done|].
  pose proof (perform_buckets a s H) as H'.
  assert (∃ x, (perform a s).1 = Returned x) as [[] Hr].
  { destruct a; unfold perform.
    - apply returns_bind; [apply returns_handleAddOrUpdate|intros; apply returns_ret].
    - apply returns_detached. }
  unfold bind. destruct (perform a s) as [o s1]. simpl in *. subst o. by apply IH.
Qed.

(** X13: after mounting and any sequence of Save and Delete actions, under
    any outcome of the remote calls, the entries state has exactly the four
    bucket keys; so [entries[category]], whose [length] every panel reads,
    is never [undefined]. *)
Theorem every_panel_has_its_bucket (s : Sys) (acts : list Action) (p : Panel) :
  dom (entries (perform_all acts (mount s).2).2) = dom empty_buckets
  ∧ is_Some (panel_entries p (perform_all acts (mount s).2).2).
Proof.
  pose proof (perform_all_buckets acts (mount s).2 (mount_buckets s)) as H.
  split; [done|]. unfold panel_entries. apply elem_of_dom. rewrite H.
  apply elem_of_dom. rewrite empty_buckets_panel. eauto.
Qed.

Lemma kept_refl (s : Sys) : kept s s.
Proof. by repeat split. Qed.

Lemma kept_trans (s1 s2 s3 : Sys) : kept s1 s2 → kept s2 s3 → kept s1 s3.
Proof.
  unfold kept. intros (?&?&?&?&?) (?&?&?&?&?).
  repeat split; try congruence. by etrans.
Qed.

Ltac kept_cases :=
  forEach_cases; unfold kept; reduce;
  repeat split; try done; try (apply prefix_app_r; done).

Lemma addOrUpdateEntry_kept
    (category title className section description url : string) (entryId : jsstr) (s : Sys) :
  kept s (addOrUpdateEntry category title className section description url entryId s).2.
Proof.
  destruct s as [u st ck fl cl co uh en t]. run.
  destruct (as_truthy t) as [tid|] eqn:Ht; reduce; [|apply kept_refl].
  destruct (as_truthy entryId) as [eid|] eqn:He; reduce.
  - destruct (teachingLearning st !! eid) as [old|] eqn:Hold;
      destruct fl as [|[e0|] [|[e1|] [|[e2|] fl]]];
      repeat (first [progress reduce | rewrite Hold | rewrite Ht]); kept_cases.
  - destruct fl as [|[e0|] [|[e1|] [|[e2|] fl]]];
      repeat (first [progress reduce | rewrite Ht]); kept_cases.
Qed.

Lemma handleDelete_kept (eid title category : string) (s : Sys) :
  kept s (handleDelete eid title category s).2.
Proof.
  destruct s as [u st ck fl cl co uh en t]. run.
  destruct (as_truthy t) as [tid|] eqn:Ht;
    destruct fl as [|[e0|] [|[e1|] [|[e2|] fl]]];
    repeat (first [progress reduce | rewrite Ht]); kept_cases.
Qed.

Lemma perform_kept (a : Action) (s : Sys) :
  (perform a s).1 = Returned () ∧ kept s (perform a s).2.
Proof.
  destruct a as [p c|eid title category].
  - unfold perform, bind, ret. rewrite handleAddOrUpdate_run. cbn [fst snd].
    split; [done|]. apply addOrUpdateEntry_kept.
  - pose proof (handleDelete_kept eid title category s) as H.
    destruct (returns_handleDelete eid title category s) as [[] Hr].
    unfold perform, detached.
    destruct (handleDelete eid title category s) as [o s']. simpl in *. by subst o.
Qed.

(** X14: Save and Delete actions, in any number and under any outcome of
    the remote calls, never change the teacher identifier, the session user
    or the teachers collection, and never remove or rewrite an audit record:
    the activity log before is a prefix of the activity log after. *)
Theorem actions_keep_identity_and_audit_trail (s : Sys) (acts : list Action) :
  kept s (perform_all acts s).2.
Proof.
  revert s. induction acts as [|a acts IH]; intros s; simpl; [apply kept_refl|].
  destruct (perform_kept a s) as [Hr Hk]. unfold bind.
  destruct (perform a s) as [o s1]. simpl in *. subst o.
  by apply kept_trans with s1.
Qed.

(** ** Editing an entry *)









